(** * uwrobot launch descriptors: gazebo_launch.py and rviz2_launch.py

    A shallow embedding of the two ROS 2 launch files of the
    [uwrobot_description] package.  Each file defines one function,
    [generate_launch_description], that resolves package share directories,
    reads the URDF of the robot in text mode and returns a
    [LaunchDescription] holding an ordered list of launch actions.

    The functions are embedded in a state-and-exception monad over
      - a read-only environment (the ament package index, the codec of the
        locale, the launch arguments supplied by the user), and
      - a state made of the file system, the object store and the
        chronological log of the effects performed. *)

From Stdlib Require Import Ascii String.
From stdpp Require Import base option list gmap strings.

Local Open Scope string_scope.
Local Open Scope list_scope.

(** ** Strings, paths and text-mode reading *)

Module Py.

(** [b.startswith('/')] and [path.endswith('/')] of posixpath.join. *)
Definition startswith_sep (b : string) : bool :=
  match b with
  | String c _ => bool_decide (c = "/"%char)
  | EmptyString => false
  end.

Fixpoint endswith_sep (p : string) : bool :=
  match p with
  | EmptyString => false
  | String c EmptyString => bool_decide (c = "/"%char)
  | String _ rest => endswith_sep rest
  end.

Definition is_empty (p : string) : bool :=
  match p with EmptyString => true | _ => false end.

(** One turn of the loop of posixpath.join:
<<
    if b.startswith(sep):               path = b
    elif not path or path.endswith(sep): path += b
    else:                                path += sep + b
>> *)
Definition join_step (path b : string) : string :=
  if startswith_sep b then b
  else if is_empty path || endswith_sep path then path +:+ b
  else path +:+ "/" +:+ b.

(** [os.path.join(a, *p)]. *)
Definition os_path_join (a : string) (p : list string) : string :=
  foldl join_step a p.

(** [str(x)] on a value that already is a [str]. *)
Definition str (x : string) : string := x.

Definition CR : ascii := Ascii.ascii_of_nat 13.
Definition LF : ascii := Ascii.ascii_of_nat 10.

(** Text-mode files are opened with [newline=None]: on input every
    ["\r\n"] and every lone ["\r"] is handed to the caller as ["\n"]. *)
Fixpoint universal_newlines (s : string) : string :=
  match s with
  | EmptyString => EmptyString
  | String c rest =>
      if bool_decide (c = CR) then
        match rest with
        | String c' rest' =>
            if bool_decide (c' = LF)
            then String LF (universal_newlines rest')
            else String LF (universal_newlines rest)
        | EmptyString => String LF EmptyString
        end
      else String c (universal_newlines rest)
  end.

Fixpoint has_CR (s : string) : bool :=
  match s with
  | EmptyString => false
  | String c rest => bool_decide (c = CR) || has_CR rest
  end.

(** The strict 7-bit codec: bytes above 127 do not decode. *)
Fixpoint ascii_decode (b : string) : option string :=
  match b with
  | EmptyString => Some EmptyString
  | String c rest =>
      if bool_decide (Ascii.nat_of_ascii c < 128)
      then String c <$> ascii_decode rest
      else None
  end.

End Py.

(** ** Launch actions *)

(** A value of a ROS parameter dictionary. *)
Inductive ParamValue :=
  | PStr (s : string)
  | PBool (b : bool).

(** The three kinds of launch action the two files construct, with the
    keyword arguments they pass; a keyword that is not passed is [None]. *)
Inductive Action :=
  | Node (package executable : string)
         (parameters : option (list (gmap string ParamValue)))
         (arguments : option (list string))
         (output : option string)
  | IncludeLaunchDescription
         (python_launch_description_source : string)
         (launch_arguments : list (string * string))
  | DeclareLaunchArgument (name : string) (default_value : string)
         (description : string).

(** Objects of the store: an action, or a launch description holding
    references to its entities. *)
Definition loc := nat.

Inductive Obj :=
  | OAction (a : Action)
  | OLaunchDescription (entities : list loc).

(** ** Effects *)

Inductive Exn :=
  | PackageNotFoundError (pkg : string)
  | FileNotFoundError (path : string)
  | UnicodeDecodeError (path : string).

Inductive Event :=
  | EvResolve (pkg : string)
  | EvOpen (path : string)
  | EvRead (path : string)
  | EvClose (path : string)
  | EvNew (l : loc) (o : Obj).

Record Env := {
  (** the ament index, for a process whose AMENT_PREFIX_PATH is set: the
      share directory of each package found in it; [None] for a package
      that is not in the index *)
  package_share : string → option string;
  (** decoder of the preferred encoding of the locale *)
  locale_decode : string → option string;
  (** values supplied by the user for the launch arguments *)
  launch_configurations : gmap string string;
}.

Record State := {
  (** the bytes of every regular file the process may read, by path; the
      file systems described have no other kind of path: a path outside
      [files] names nothing *)
  files : string → option string;
  heap : list Obj;
  (** effects performed so far, oldest first *)
  events : list Event;
}.

Inductive Outcome (A : Type) :=
  | Returned (a : A)
  | Raised (e : Exn).
Arguments Returned {A} a.
Arguments Raised {A} e.

Definition M (A : Type) : Type := Env → State → Outcome A * State.

Definition ret {A} (a : A) : M A := λ _ st, (Returned a, st).

Definition bind {A B} (m : M A) (k : A → M B) : M B :=
  λ env st,
    match m env st with
    | (Returned a, st') => k a env st'
    | (Raised e, st') => (Raised e, st')
    end.

Definition raise {A} (e : Exn) : M A := λ _ st, (Raised e, st).

#[global] Instance M_ret : MRet M := @ret.
#[global] Instance M_bind : MBind M := λ A B k m, bind m k.

Definition ask : M Env := λ env st, (Returned env, st).
Definition get : M State := λ _ st, (Returned st, st).

Definition log (e : Event) : M unit :=
  λ _ st, (Returned tt,
           {| files := files st; heap := heap st;
              events := events st ++ [e] |}).

(** [try: body finally: cleanup]. *)
Definition try_finally {A} (body : M A) (cleanup : M unit) : M A :=
  λ env st,
    match body env st with
    | (r, st') =>
        match cleanup env st' with
        | (Returned _, st'') => (r, st'')
        | (Raised e, st'') => (Raised e, st'')
        end
    end.

(** [ament_index_python.packages.get_package_share_directory], as the
    launchers see it: a call that hands back the share directory of a
    package of the index or raises PackageNotFoundError.  The call is
    logged as one [EvResolve]; what the resolver reads in the index on its
    own account is inside that event and is not logged as [EvOpen], which
    is kept for the [open] calls of the launchers. *)
Definition get_package_share_directory (pkg : string) : M string :=
  log (EvResolve pkg);;
  env ← ask;
  match package_share env pkg with
  | Some d => mret d
  | None => raise (PackageNotFoundError pkg)
  end.

(** An open text file: its path and the bytes behind it. *)
Record TextFile := { file_path : string; file_bytes : string }.

(** [open(path, 'r')] written in a launcher, on the file systems [files]
    describes: the file is there, or FileNotFoundError is raised. *)
Definition open_r (path : string) : M TextFile :=
  log (EvOpen path);;
  st ← get;
  match files st path with
  | Some b => mret {| file_path := path; file_bytes := b |}
  | None => raise (FileNotFoundError path)
  end.

(** [f.read()] on a text file: decode, then translate the line ends. *)
Definition read (f : TextFile) : M string :=
  log (EvRead (file_path f));;
  env ← ask;
  match locale_decode env (file_bytes f) with
  | Some t => mret (Py.universal_newlines t)
  | None => raise (UnicodeDecodeError (file_path f))
  end.

Definition close (f : TextFile) : M unit := log (EvClose (file_path f)).

(** [with open(path, 'r') as f: body]. *)
Definition with_open {A} (path : string) (body : TextFile → M A) : M A :=
  f ← open_r path;
  try_finally (body f) (close f).

(** Construction of an object: it is stored at the next free location. *)
Definition new (o : Obj) : M loc :=
  λ _ st,
    let l := length (heap st) in
    (Returned l,
     {| files := files st; heap := heap st ++ [o];
        events := events st ++ [EvNew l o] |}).

Definition new_action (a : Action) : M loc := new (OAction a).

Definition LaunchDescription (entities : list loc) : M loc :=
  new (OLaunchDescription entities).

(** ** gazebo_launch.py *)

Module Gazebo.

Definition world_path (pkg_model : string) : string :=
  Py.os_path_join pkg_model ["world"; "empty.world"].

Definition urdf_path (pkg_model : string) : string :=
  Py.os_path_join pkg_model ["urdf"; "uwrobot.urdf"].

Definition robot_state_publisher (robot_desc : string) : Action :=
  Node "robot_state_publisher" "robot_state_publisher"
    (Some [ <["robot_description" := PStr robot_desc]>
              (<["use_sim_time" := PBool true]> ∅) ])
    None None.

Definition gazebo (pkg_gazebo world_path : string) : Action :=
  IncludeLaunchDescription
    (Py.os_path_join pkg_gazebo ["launch"; "gazebo.launch.py"])
    [("verbose", "true"); ("world", world_path)].

Definition spawn : Action :=
  Node "gazebo_ros" "spawn_entity.py" None
    (Some ["-topic"; "/robot_description";
           "-entity"; "zh_bot";
           "-x"; "0"; "-y"; "0"; "-z"; "0.4"])
    (Some "screen").

Definition joint_state_spawner : Action :=
  Node "controller_manager" "spawner" None
    (Some ["joint_state_broadcaster"]) (Some "screen").

Definition velocity_spawner : Action :=
  Node "controller_manager" "spawner" None
    (Some ["velocity_controller"]) (Some "screen").

Definition steering_spawner : Action :=
  Node "controller_manager" "spawner" None
    (Some ["steering_controller"]) (Some "screen").

Definition generate_launch_description : M loc :=
  pkg_gazebo ← get_package_share_directory "gazebo_ros";
  pkg_model ← get_package_share_directory "uwrobot_description";
  let world_path := world_path pkg_model in
  let urdf_path := urdf_path pkg_model in
  robot_desc ← with_open urdf_path (λ f, read f);
  robot_state_publisher ← new_action (robot_state_publisher robot_desc);
  gazebo ← new_action (gazebo pkg_gazebo world_path);
  spawn ← new_action spawn;
  joint_state_spawner ← new_action joint_state_spawner;
  velocity_spawner ← new_action velocity_spawner;
  steering_spawner ← new_action steering_spawner;
  LaunchDescription
    [robot_state_publisher; gazebo; spawn;
     joint_state_spawner; velocity_spawner; steering_spawner].

End Gazebo.

(** ** rviz2_launch.py *)

Module Rviz2.

Definition model_path (pkg_share : string) : string :=
  Py.os_path_join pkg_share ["urdf"; "uwrobot.urdf"].

Definition rviz_config_file (pkg_share : string) : string :=
  Py.os_path_join pkg_share ["resource"; "resource.rviz"].

Definition action_declare_arg_mode_path (model_path : string) : Action :=
  DeclareLaunchArgument "model" (Py.str model_path) "URDF 的绝对路径".

Definition robot_state_publisher_node (robot_description : string) : Action :=
  Node "robot_state_publisher" "robot_state_publisher"
    (Some [ {["robot_description" := PStr robot_description]} ])
    None None.

Definition joint_state_publisher_node : Action :=
  Node "joint_state_publisher" "joint_state_publisher" None None None.

Definition rviz_node (rviz_config_file : string) : Action :=
  Node "rviz2" "rviz2" None (Some ["-d"; rviz_config_file]) None.

Definition generate_launch_description : M loc :=
  pkg_share ← get_package_share_directory "uwrobot_description";
  let model_path := model_path pkg_share in
  let rviz_config_file := rviz_config_file pkg_share in
  action_declare_arg_mode_path ←
    new_action (action_declare_arg_mode_path model_path);
  robot_description ← with_open model_path (λ infp, read infp);
  robot_state_publisher_node ←
    new_action (robot_state_publisher_node robot_description);
  joint_state_publisher_node ← new_action joint_state_publisher_node;
  rviz_node ← new_action (rviz_node rviz_config_file);
  LaunchDescription
    [action_declare_arg_mode_path; joint_state_publisher_node;
     robot_state_publisher_node; rviz_node].

End Rviz2.

(** ** Reading results back *)

Definition action_at (st : State) (l : loc) : option Action :=
  match heap st !! l with
  | Some (OAction a) => Some a
  | _ => None
  end.

(** The actions a launch description holds, in order; [None] when [l] is
    not a launch description or one of its entities is not an action. *)
Definition entities_of (st : State) (l : loc) : option (list Action) :=
  match heap st !! l with
  | Some (OLaunchDescription es) => mapM (action_at st) es
  | _ => None
  end.

(** What a text-mode read of [path] hands back, when it succeeds. *)
Definition read_text (env : Env) (st : State) (path : string)
  : option string :=
  b ← files st path;
  Py.universal_newlines <$> locale_decode env b.

(** Projections of the effect log. *)
Definition opened (evs : list Event) : list string :=
  omap (λ e, match e with EvOpen p => Some p | _ => None end) evs.


Definition constructed (evs : list Event) : list (loc * Obj) :=
  omap (λ e, match e with EvNew l o => Some (l, o) | _ => None end) evs.

Definition is_launch_description (o : Obj) : bool :=
  match o with OLaunchDescription _ => true | OAction _ => false end.

(** The parameter dictionaries passed to a node. *)
Definition node_parameters (a : Action) : list (gmap string ParamValue) :=
  match a with
  | Node _ _ (Some ds) _ _ => ds
  | _ => []
  end.

(** The values bound to ['robot_description'] in the parameter
    dictionaries of the nodes of an action list, in order. *)
Definition robot_descriptions (acts : list Action) : list ParamValue :=
  omap (λ d : gmap string ParamValue, d !! "robot_description")
       (acts ≫= node_parameters).

(** A [controller_manager] spawner node, whatever its arguments. *)
Definition is_controller_spawner (a : Action) : bool :=
  match a with
  | Node p e _ _ _ =>
      bool_decide (p = "controller_manager") && bool_decide (e = "spawner")
  | _ => false
  end.

(** ** The state after a run *)

Definition extend (st : State) (objs : list Obj) (evs : list Event) : State :=
  {| files := files st; heap := heap st ++ objs;
     events := events st ++ evs |}.

(** The events logged by the construction of [objs] from location [n] on. *)
Definition news (n : loc) (objs : list Obj) : list Event :=
  imap (λ i o, EvNew (n + i) o) objs.

Definition file_events (p : string) : list Event :=
  [EvOpen p; EvRead p; EvClose p].

Module GazeboRun.
Import Gazebo.

(** The objects a successful run constructs, the first at location [n]. *)
Definition objects (pg pm t : string) (n : loc) : list Obj :=
  [ OAction (robot_state_publisher t);
    OAction (gazebo pg (world_path pm));
    OAction spawn;
    OAction joint_state_spawner;
    OAction velocity_spawner;
    OAction steering_spawner;
    OLaunchDescription [n; n + 1; n + 2; n + 3; n + 4; n + 5] ].

Definition resolve_events : list Event :=
  [EvResolve "gazebo_ros"; EvResolve "uwrobot_description"].

End GazeboRun.

Module Rviz2Run.
Import Rviz2.

Definition declared (pm : string) : Obj :=
  OAction (action_declare_arg_mode_path (model_path pm)).

(** The objects a successful run constructs after the declaration of the
    launch argument, which sits at location [n]. *)
Definition objects (pm t : string) (n : loc) : list Obj :=
  [ OAction (robot_state_publisher_node t);
    OAction joint_state_publisher_node;
    OAction (rviz_node (rviz_config_file pm));
    OLaunchDescription [n; n + 2; n + 1; n + 3] ].

End Rviz2Run.

(** The writes to the store a run logs, against the objects it leaves:
    one write per new object, at the location the object occupies in the
    final store, with the value found there. *)
Definition written_once (st st' : State) : Prop :=
  ∃ objs evs,
    heap st' = heap st ++ objs ∧
    events st' = events st ++ evs ∧
    constructed evs = imap (λ i o, (length (heap st) + i, o)) objs.

(** The environment with other values for the launch arguments. *)
Definition with_launch_configurations
    (env : Env) (lc : gmap string string) : Env :=
  {| package_share := package_share env;
     locale_decode := locale_decode env;
     launch_configurations := lc |}.

(** ** Sample installations *)

Definition sample_pkg_gazebo : string := "/opt/ros/humble/share/gazebo_ros".
Definition sample_pkg_model : string :=
  "/ws/install/uwrobot_description/share/uwrobot_description".
Definition sample_urdf : string := "<robot name='zh_bot'></robot>".

Definition sample_env : Env :=
  {| package_share := λ pkg,
       if String.eqb pkg "gazebo_ros" then Some sample_pkg_gazebo
       else if String.eqb pkg "uwrobot_description" then Some sample_pkg_model
       else None;
     locale_decode := Py.ascii_decode;
     launch_configurations := ∅ |}.

Definition sample_state : State :=
  {| files := λ p,
       if String.eqb p (sample_pkg_model +:+ "/urdf/uwrobot.urdf")
       then Some sample_urdf else None;
     heap := []; events := [] |}.

(** An installation whose URDF has DOS line ends. *)
Definition crlf : string := String Py.CR (String Py.LF EmptyString).
Definition lf : string := String Py.LF EmptyString.

Definition crlf_urdf : string :=
  "<robot name='zh_bot'>" +:+ crlf +:+ "</robot>" +:+ crlf.

Definition crlf_urdf_as_read : string :=
  "<robot name='zh_bot'>" +:+ lf +:+ "</robot>" +:+ lf.

Definition crlf_state : State :=
  {| files := λ p,
       if String.eqb p (sample_pkg_model +:+ "/urdf/uwrobot.urdf")
       then Some crlf_urdf else None;
     heap := []; events := [] |}.

(** An installation without the URDF. *)
Definition no_urdf_state : State :=
  {| files := λ _, None; heap := []; events := [] |}.

(** ** Further observations *)

(** More projections of the effect log. *)
Definition closed (evs : list Event) : list string :=
  omap (λ e, match e with EvClose p => Some p | _ => None end) evs.


(** The locations a launch description refers to. *)
Definition entity_locs (st : State) (l : loc) : option (list loc) :=
  match heap st !! l with
  | Some (OLaunchDescription es) => Some es
  | _ => None
  end.

(** What posixpath.join puts between [p] and a relative component. *)
Definition sep_after (p : string) : string :=
  if Py.is_empty p || Py.endswith_sep p then "" else "/".

(** The two launchers run one after the other in the same process. *)
Definition simulation_then_visualization : M (loc * loc) :=
  sim ← Gazebo.generate_launch_description;
  viz ← Rviz2.generate_launch_description;
  mret (sim, viz).

(** The simulation launcher run twice. *)
Definition simulation_twice : M (loc * loc) :=
  first ← Gazebo.generate_launch_description;
  second ← Gazebo.generate_launch_description;
  mret (first, second).

(** An installation whose URDF is not text in the 7-bit codec. *)
Definition binary_urdf : string :=
  "<robot name='" +:+ String (Ascii.ascii_of_nat 233) "'/>".

Definition binary_state : State :=
  {| files := λ p,
       if String.eqb p (sample_pkg_model +:+ "/urdf/uwrobot.urdf")
       then Some binary_urdf else None;
     heap := []; events := [] |}.

(** Installations that miss a package. *)
Definition no_gazebo_env : Env :=
  {| package_share := λ pkg,
       if String.eqb pkg "uwrobot_description" then Some sample_pkg_model
       else None;
     locale_decode := Py.ascii_decode;
     launch_configurations := ∅ |}.

Definition no_model_env : Env :=
  {| package_share := λ pkg,
       if String.eqb pkg "gazebo_ros" then Some sample_pkg_gazebo
       else None;
     locale_decode := Py.ascii_decode;
     launch_configurations := ∅ |}.

(** A store that already holds objects of the caller. *)
Definition busy_state : State :=
  {| files := files sample_state;
     heap := [OAction Rviz2.joint_state_publisher_node;
              OLaunchDescription [0]];
     events := [EvNew 0 (OAction Rviz2.joint_state_publisher_node);
                EvNew 1 (OLaunchDescription [0])] |}.

(** * Properties *)

(** ** Running the monad *)

Lemma extend_extend st o1 e1 o2 e2 :
  extend (extend st o1 e1) o2 e2 = extend st (o1 ++ o2) (e1 ++ e2).
Proof. unfold extend; simpl. by rewrite <- !app_assoc. Qed.

Lemma files_extend st objs evs : files (extend st objs evs) = files st.
Proof. reflexivity. Qed.

Lemma heap_extend st objs evs : heap (extend st objs evs) = heap st ++ objs.
Proof. reflexivity. Qed.

Lemma run_bind {A B} (m : M A) (k : A → M B) env st :
  (m ≫= k) env st =
  match m env st with
  | (Returned a, st') => k a env st'
  | (Raised e, st') => (Raised e, st')
  end.
Proof. reflexivity. Qed.

Lemma run_log e env st : log e env st = (Returned tt, extend st [] [e]).
Proof. unfold log, extend. by rewrite app_nil_r. Qed.

Lemma run_new o env st :
  new o env st = (Returned (length (heap st)), extend st [o] [EvNew (length (heap st)) o]).
Proof. reflexivity. Qed.

Lemma run_new_action a env st :
  new_action a env st =
  (Returned (length (heap st)),
   extend st [OAction a] [EvNew (length (heap st)) (OAction a)]).
Proof. reflexivity. Qed.

Lemma run_ask env st : ask env st = (Returned env, st).
Proof. reflexivity. Qed.

Lemma run_get env st : get env st = (Returned st, st).
Proof. reflexivity. Qed.

Lemma run_mret {A} (a : A) env st :
  (mret a : M A) env st = (Returned a, st).
Proof. reflexivity. Qed.

Lemma run_raise {A} e env st : @raise A e env st = (Raised e, st).
Proof. reflexivity. Qed.

Ltac run_prim :=
  repeat first
    [ rewrite run_bind | rewrite run_log | rewrite run_new
    | rewrite run_ask | rewrite run_get | rewrite run_mret
    | rewrite run_raise | progress cbv beta iota ].

Lemma run_get_package_share_directory pkg env st :
  get_package_share_directory pkg env st =
  (match package_share env pkg with
   | Some d => Returned d
   | None => Raised (PackageNotFoundError pkg)
   end, extend st [] [EvResolve pkg]).
Proof.
  unfold get_package_share_directory. run_prim.
  destruct (package_share env pkg); by run_prim.
Qed.

Lemma run_with_open_read path env st :
  with_open path read env st =
  match files st path with
  | None => (Raised (FileNotFoundError path), extend st [] [EvOpen path])
  | Some b =>
      (match locale_decode env b with
       | Some t => Returned (Py.universal_newlines t)
       | None => Raised (UnicodeDecodeError path)
       end,
       extend st [] [EvOpen path; EvRead path; EvClose path])
  end.
Proof.
  unfold with_open, open_r. run_prim. rewrite files_extend.
  destruct (files st path) as [b|]; run_prim; [|done].
  unfold try_finally, read, close. run_prim. cbn [file_path file_bytes].
  destruct (locale_decode env b); run_prim; by rewrite !extend_extend.
Qed.

Lemma Gazebo_run env st :
  Gazebo.generate_launch_description env st =
  match package_share env "gazebo_ros" with
  | None => (Raised (PackageNotFoundError "gazebo_ros"),
             extend st [] [EvResolve "gazebo_ros"])
  | Some pg =>
    match package_share env "uwrobot_description" with
    | None => (Raised (PackageNotFoundError "uwrobot_description"),
               extend st [] GazeboRun.resolve_events)
    | Some pm =>
      match files st (Gazebo.urdf_path pm) with
      | None => (Raised (FileNotFoundError (Gazebo.urdf_path pm)),
                 extend st [] (GazeboRun.resolve_events ++ [EvOpen (Gazebo.urdf_path pm)]))
      | Some b =>
        match locale_decode env b with
        | None => (Raised (UnicodeDecodeError (Gazebo.urdf_path pm)),
                   extend st [] (GazeboRun.resolve_events ++ file_events (Gazebo.urdf_path pm)))
        | Some d =>
            let n := length (heap st) in
            let objs := GazeboRun.objects pg pm (Py.universal_newlines d) n in
            (Returned (n + 6),
             extend st objs
               (GazeboRun.resolve_events ++ file_events (Gazebo.urdf_path pm) ++ news n objs))
        end
      end
    end
  end.
Proof.
  unfold Gazebo.generate_launch_description.
  rewrite run_bind, run_get_package_share_directory.
  destruct (package_share env "gazebo_ros") as [pg|]; [|done].
  cbv beta iota.
  rewrite run_bind, run_get_package_share_directory.
  destruct (package_share env "uwrobot_description") as [pm|];
    [|by rewrite extend_extend].
  cbv beta iota zeta.
  rewrite run_bind, run_with_open_read, !files_extend.
  destruct (files st (Gazebo.urdf_path pm)) as [b|];
    [|by rewrite !extend_extend].
  destruct (locale_decode env b) as [d|];
    [|by rewrite !extend_extend].
  unfold new_action, LaunchDescription. run_prim.
  rewrite !extend_extend, !heap_extend, !length_app.
  unfold GazeboRun.objects, news, GazeboRun.resolve_events, file_events.
  cbn [length app Nat.add imap compose]. by rewrite !Nat.add_0_r.
Qed.

Lemma Rviz2_run env st :
  Rviz2.generate_launch_description env st =
  match package_share env "uwrobot_description" with
  | None => (Raised (PackageNotFoundError "uwrobot_description"),
             extend st [] [EvResolve "uwrobot_description"])
  | Some pm =>
    let n := length (heap st) in
    let pre := [EvResolve "uwrobot_description"; EvNew n (Rviz2Run.declared pm)] in
    match files st (Rviz2.model_path pm) with
    | None => (Raised (FileNotFoundError (Rviz2.model_path pm)),
               extend st [Rviz2Run.declared pm] (pre ++ [EvOpen (Rviz2.model_path pm)]))
    | Some b =>
      match locale_decode env b with
      | None => (Raised (UnicodeDecodeError (Rviz2.model_path pm)),
                 extend st [Rviz2Run.declared pm] (pre ++ file_events (Rviz2.model_path pm)))
      | Some d =>
          let objs := Rviz2Run.objects pm (Py.universal_newlines d) n in
          (Returned (n + 4),
           extend st (Rviz2Run.declared pm :: objs)
             (pre ++ file_events (Rviz2.model_path pm) ++ news (n + 1) objs))
      end
    end
  end.
Proof.
  unfold Rviz2.generate_launch_description.
  rewrite run_bind, run_get_package_share_directory.
  destruct (package_share env "uwrobot_description") as [pm|]; [|done].
  cbv beta iota zeta.
  rewrite run_bind, run_new_action. cbv beta iota.
  rewrite run_bind, run_with_open_read, !files_extend.
  destruct (files st (Rviz2.model_path pm)) as [b|].
  2: { rewrite !extend_extend, !heap_extend, !length_app.
       unfold Rviz2Run.declared. cbn [length app Nat.add]. by rewrite !Nat.add_0_r. }
  destruct (locale_decode env b) as [d|].
  2: { rewrite !extend_extend, !heap_extend, !length_app.
       unfold Rviz2Run.declared, file_events. cbn [length app Nat.add].
       by rewrite !Nat.add_0_r. }
  unfold new_action, LaunchDescription. run_prim.
  rewrite !extend_extend, !heap_extend, !length_app.
  unfold Rviz2Run.objects, news, Rviz2Run.declared, file_events.
  cbn [length app Nat.add imap compose].
  rewrite !Nat.add_0_r, <- !Nat.add_assoc. by cbn [Nat.add].
Qed.

(** ** The store after a run *)

Lemma lookup_extend_new st objs evs l k :
  l = length (heap st) + k →
  heap (extend st objs evs) !! l = objs !! k.
Proof.
  intros ->. rewrite heap_extend, lookup_app_r by lia.
  f_equal. lia.
Qed.

Lemma action_at_new st objs evs l k a :
  l = length (heap st) + k →
  objs !! k = Some (OAction a) →
  action_at (extend st objs evs) l = Some a.
Proof.
  intros Hl Hk. unfold action_at.
  by rewrite (lookup_extend_new _ _ _ _ k Hl), Hk.
Qed.

Lemma Gazebo_entities st pg pm t evs :
  let n := length (heap st) in
  entities_of (extend st (GazeboRun.objects pg pm t n) evs) (n + 6) =
  Some [ Gazebo.robot_state_publisher t;
         Gazebo.gazebo pg (Gazebo.world_path pm);
         Gazebo.spawn;
         Gazebo.joint_state_spawner;
         Gazebo.velocity_spawner;
         Gazebo.steering_spawner ].
Proof.
  intros n. unfold entities_of.
  rewrite (lookup_extend_new _ _ _ (n + 6) 6 eq_refl).
  change (GazeboRun.objects pg pm t n !! 6)
    with (Some (OLaunchDescription [n; n + 1; n + 2; n + 3; n + 4; n + 5])).
  cbn [mapM].
  rewrite (action_at_new _ _ _ n 0 (Gazebo.robot_state_publisher t)),
    (action_at_new _ _ _ (n + 1) 1 (Gazebo.gazebo pg (Gazebo.world_path pm))),
    (action_at_new _ _ _ (n + 2) 2 Gazebo.spawn),
    (action_at_new _ _ _ (n + 3) 3 Gazebo.joint_state_spawner),
    (action_at_new _ _ _ (n + 4) 4 Gazebo.velocity_spawner),
    (action_at_new _ _ _ (n + 5) 5 Gazebo.steering_spawner);
    solve [reflexivity | subst n; lia].
Qed.

Lemma Rviz2_entities st pm t evs :
  let n := length (heap st) in
  entities_of
    (extend st (Rviz2Run.declared pm :: Rviz2Run.objects pm t n) evs) (n + 4) =
  Some [ Rviz2.action_declare_arg_mode_path (Rviz2.model_path pm);
         Rviz2.joint_state_publisher_node;
         Rviz2.robot_state_publisher_node t;
         Rviz2.rviz_node (Rviz2.rviz_config_file pm) ].
Proof.
  intros n. unfold entities_of.
  rewrite (lookup_extend_new _ _ _ (n + 4) 4 eq_refl).
  change ((Rviz2Run.declared pm :: Rviz2Run.objects pm t n) !! 4)
    with (Some (OLaunchDescription [n; n + 2; n + 1; n + 3])).
  cbn [mapM].
  rewrite
    (action_at_new _ _ _ n 0
       (Rviz2.action_declare_arg_mode_path (Rviz2.model_path pm))),
    (action_at_new _ _ _ (n + 2) 2 Rviz2.joint_state_publisher_node),
    (action_at_new _ _ _ (n + 1) 1 (Rviz2.robot_state_publisher_node t)),
    (action_at_new _ _ _ (n + 3) 3
       (Rviz2.rviz_node (Rviz2.rviz_config_file pm)));
    solve [reflexivity | subst n; lia].
Qed.

Lemma read_text_Some env st p t :
  read_text env st p = Some t ↔
  ∃ b d, files st p = Some b ∧ locale_decode env b = Some d ∧
         t = Py.universal_newlines d.
Proof.
  unfold read_text. split.
  - destruct (files st p) as [b|]; [|done]. cbn.
    destruct (locale_decode env b) as [d|] eqn:Hd; [|done]. cbn.
    intros [= <-]. by exists b, d.
  - intros (b & d & -> & Hd & ->). cbn. by rewrite Hd.
Qed.

(** A run of the simulation launcher in an environment where both packages
    resolve and the URDF reads as [t]. *)
Lemma Gazebo_returns env st pg pm t :
  package_share env "gazebo_ros" = Some pg →
  package_share env "uwrobot_description" = Some pm →
  read_text env st (Gazebo.urdf_path pm) = Some t →
  ∃ st',
    Gazebo.generate_launch_description env st
      = (Returned (length (heap st) + 6), st') ∧
    entities_of st' (length (heap st) + 6)
      = Some [ Gazebo.robot_state_publisher t;
               Gazebo.gazebo pg (Gazebo.world_path pm);
               Gazebo.spawn;
               Gazebo.joint_state_spawner;
               Gazebo.velocity_spawner;
               Gazebo.steering_spawner ].
Proof.
  intros Hg Hm (b & d & Hb & Hd & ->)%read_text_Some.
  rewrite Gazebo_run, Hg, Hm, Hb, Hd. cbv zeta.
  eexists; split; [reflexivity|]. apply Gazebo_entities.
Qed.

(** The same for the visualization launcher. *)
Lemma Rviz2_returns env st pm t :
  package_share env "uwrobot_description" = Some pm →
  read_text env st (Rviz2.model_path pm) = Some t →
  ∃ st',
    Rviz2.generate_launch_description env st
      = (Returned (length (heap st) + 4), st') ∧
    entities_of st' (length (heap st) + 4)
      = Some [ Rviz2.action_declare_arg_mode_path (Rviz2.model_path pm);
               Rviz2.joint_state_publisher_node;
               Rviz2.robot_state_publisher_node t;
               Rviz2.rviz_node (Rviz2.rviz_config_file pm) ].
Proof.
  intros Hm (b & d & Hb & Hd & ->)%read_text_Some.
  rewrite Rviz2_run, Hm, Hb, Hd. cbv zeta.
  eexists; split; [reflexivity|]. apply Rviz2_entities.
Qed.

(** ** Line ends in text mode *)

Lemma universal_newlines_no_CR s :
  Py.has_CR s = false → Py.universal_newlines s = s.
Proof.
  induction s as [|c s IH]; [done|].
  cbn [Py.has_CR Py.universal_newlines].
  intros [Hc Hs]%orb_false_iff. rewrite Hc. by rewrite IH.
Qed.

Lemma universal_newlines_has_no_CR s :
  Py.has_CR (Py.universal_newlines s) = false.
Proof.
  induction s as [|c s IH]; [done|].
  cbn [Py.universal_newlines].
  destruct (bool_decide (c = Py.CR)) eqn:Hc.
  - destruct s as [|c' s']; [done|].
    destruct (bool_decide (c' = Py.LF)) eqn:Hc'.
    + apply bool_decide_eq_true in Hc' as ->.
      cbn [Py.universal_newlines] in IH.
      change (bool_decide (Py.LF = Py.CR)) with false in IH.
      exact IH.
    + exact IH.
  - cbn [Py.has_CR]. by rewrite Hc, IH.
Qed.

(** A text-mode read hands back the decoded content unchanged exactly when
    that content has no carriage return. *)
Lemma universal_newlines_fixpoint s :
  Py.universal_newlines s = s ↔ Py.has_CR s = false.
Proof.
  split; [|apply universal_newlines_no_CR].
  intros <-. apply universal_newlines_has_no_CR.
Qed.

Example crlf_urdf_read : Py.universal_newlines crlf_urdf = crlf_urdf_as_read.
Proof. reflexivity. Qed.

Example lone_CR_read :
  Py.universal_newlines ("a" +:+ String Py.CR "b") = "a" +:+ lf +:+ "b".
Proof. reflexivity. Qed.

(** ** Paths *)

Example sample_urdf_path :
  Gazebo.urdf_path sample_pkg_model
  = "/ws/install/uwrobot_description/share/uwrobot_description/urdf/uwrobot.urdf".
Proof. reflexivity. Qed.

Example sample_world_path :
  Gazebo.world_path sample_pkg_model
  = "/ws/install/uwrobot_description/share/uwrobot_description/world/empty.world".
Proof. reflexivity. Qed.

Example join_absolute_component :
  Py.os_path_join "/a" ["/b"; "c"] = "/b/c".
Proof. reflexivity. Qed.

Example join_trailing_sep :
  Py.os_path_join "/a/" ["urdf"; "uwrobot.urdf"] = "/a/urdf/uwrobot.urdf".
Proof. reflexivity. Qed.

(** ** What the launchers embed *)

Lemma robot_descriptions_Gazebo pg wp t :
  robot_descriptions
    [ Gazebo.robot_state_publisher t; Gazebo.gazebo pg wp; Gazebo.spawn;
      Gazebo.joint_state_spawner; Gazebo.velocity_spawner;
      Gazebo.steering_spawner ] = [PStr t].
Proof.
  unfold robot_descriptions.
  cbn [mbind list_bind node_parameters Gazebo.robot_state_publisher
       Gazebo.gazebo Gazebo.spawn Gazebo.joint_state_spawner
       Gazebo.velocity_spawner Gazebo.steering_spawner app omap list_omap].
  by rewrite lookup_insert_eq.
Qed.

Lemma robot_descriptions_Rviz2 mp rc t :
  robot_descriptions
    [ Rviz2.action_declare_arg_mode_path mp;
      Rviz2.joint_state_publisher_node;
      Rviz2.robot_state_publisher_node t;
      Rviz2.rviz_node rc ] = [PStr t].
Proof.
  unfold robot_descriptions.
  cbn [mbind list_bind node_parameters Rviz2.action_declare_arg_mode_path
       Rviz2.joint_state_publisher_node Rviz2.robot_state_publisher_node
       Rviz2.rviz_node app omap list_omap].
  by rewrite lookup_singleton_eq.
Qed.

(** What [written_once] gives: old objects are kept, and every logged
    write is found, as written, in the final store. *)
Lemma written_once_kept st st' l o :
  written_once st st' → heap st !! l = Some o → heap st' !! l = Some o.
Proof.
  intros (objs & evs & -> & _ & _) Hl. by apply lookup_app_l_Some.
Qed.

Lemma written_once_found st st' :
  written_once st st' →
  ∃ evs, events st' = events st ++ evs ∧
         NoDup (constructed evs).*1 ∧
         Forall (λ lo : loc * Obj,
                   (length (heap st) ≤ lo.1)%nat ∧
                   heap st' !! lo.1 = Some lo.2)
                (constructed evs).
Proof.
  intros (objs & evs & Hh & He & Hc). exists evs. split; [done|].
  rewrite Hc, Hh. split.
  - rewrite fmap_imap. unfold compose; cbn [fst].
    apply NoDup_alt. intros i j l.
    rewrite !list_lookup_imap.
    destruct (objs !! i), (objs !! j); cbn; try done.
    intros [= <-] [= Hj]. lia.
  - apply Forall_forall. intros [l o].
    rewrite list_elem_of_lookup. intros [i Hi].
    rewrite list_lookup_imap in Hi.
    destruct (objs !! i) as [o'|] eqn:Ho; [|done].
    cbn in Hi. injection Hi as <- <-. cbn [fst snd]. split; [lia|].
    rewrite lookup_app_r by lia. rewrite <- Ho. f_equal. lia.
Qed.

(** ** The launchers *)

(** C1. Whenever both packages resolve and the URDF is read, the
    simulation launcher returns a launch description of exactly six
    actions, in this order: the robot_state_publisher node, the Gazebo
    include, the spawn_entity node, and the spawners of
    joint_state_broadcaster, velocity_controller and steering_controller. *)
Theorem simulation_six_actions env st pg pm t :
  package_share env "gazebo_ros" = Some pg →
  package_share env "uwrobot_description" = Some pm →
  read_text env st (Gazebo.urdf_path pm) = Some t →
  ∃ l st' acts,
    Gazebo.generate_launch_description env st = (Returned l, st') ∧
    entities_of st' l = Some acts ∧
    length acts = 6 ∧
    acts =
      [ Node "robot_state_publisher" "robot_state_publisher"
          (Some [ <["robot_description" := PStr t]>
                    (<["use_sim_time" := PBool true]> ∅) ]) None None;
        IncludeLaunchDescription
          (Py.os_path_join pg ["launch"; "gazebo.launch.py"])
          [("verbose", "true");
           ("world", Py.os_path_join pm ["world"; "empty.world"])];
        Node "gazebo_ros" "spawn_entity.py" None
          (Some ["-topic"; "/robot_description"; "-entity"; "zh_bot";
                 "-x"; "0"; "-y"; "0"; "-z"; "0.4"]) (Some "screen");
        Node "controller_manager" "spawner" None
          (Some ["joint_state_broadcaster"]) (Some "screen");
        Node "controller_manager" "spawner" None
          (Some ["velocity_controller"]) (Some "screen");
        Node "controller_manager" "spawner" None
          (Some ["steering_controller"]) (Some "screen") ].
Proof.
  intros Hg Hm Ht.
  destruct (Gazebo_returns env st pg pm t Hg Hm Ht) as (st' & Hrun & Hents).
  by eexists _, st', _.
Qed.

(** The sample installation: the six actions of the simulation launcher. *)
Lemma simulation_six_actions_witness :
  ∃ l st' acts,
    Gazebo.generate_launch_description sample_env sample_state
      = (Returned l, st') ∧
    entities_of st' l = Some acts ∧
    length acts = 6 ∧
    acts =
      [ Node "robot_state_publisher" "robot_state_publisher"
          (Some [ <["robot_description" := PStr sample_urdf]>
                    (<["use_sim_time" := PBool true]> ∅) ]) None None;
        IncludeLaunchDescription
          (Py.os_path_join sample_pkg_gazebo ["launch"; "gazebo.launch.py"])
          [("verbose", "true");
           ("world", Py.os_path_join sample_pkg_model ["world"; "empty.world"])];
        Node "gazebo_ros" "spawn_entity.py" None
          (Some ["-topic"; "/robot_description"; "-entity"; "zh_bot";
                 "-x"; "0"; "-y"; "0"; "-z"; "0.4"]) (Some "screen");
        Node "controller_manager" "spawner" None
          (Some ["joint_state_broadcaster"]) (Some "screen");
        Node "controller_manager" "spawner" None
          (Some ["velocity_controller"]) (Some "screen");
        Node "controller_manager" "spawner" None
          (Some ["steering_controller"]) (Some "screen") ].
Proof.
  apply (simulation_six_actions sample_env sample_state
           sample_pkg_gazebo sample_pkg_model sample_urdf);
    reflexivity.
Defined.

(** C2. Whenever the package resolves and the URDF is read, the
    visualization launcher returns a launch description of exactly four
    actions: the declaration of the launch argument [model], then the
    joint_state_publisher node, the robot_state_publisher node and the
    rviz2 process started with [-d] and the configuration file. *)
Theorem visualization_four_actions env st pm t :
  package_share env "uwrobot_description" = Some pm →
  read_text env st (Rviz2.model_path pm) = Some t →
  ∃ l st' acts,
    Rviz2.generate_launch_description env st = (Returned l, st') ∧
    entities_of st' l = Some acts ∧
    length acts = 4 ∧
    acts =
      [ DeclareLaunchArgument "model"
          (Py.os_path_join pm ["urdf"; "uwrobot.urdf"]) "URDF 的绝对路径";
        Node "joint_state_publisher" "joint_state_publisher" None None None;
        Node "robot_state_publisher" "robot_state_publisher"
          (Some [ {["robot_description" := PStr t]} ]) None None;
        Node "rviz2" "rviz2" None
          (Some ["-d"; Py.os_path_join pm ["resource"; "resource.rviz"]])
          None ].
Proof.
  intros Hm Ht.
  destruct (Rviz2_returns env st pm t Hm Ht) as (st' & Hrun & Hents).
  by eexists _, st', _.
Qed.

(** The sample installation: the four actions of the visualization launcher. *)
Lemma visualization_four_actions_witness :
  ∃ l st' acts,
    Rviz2.generate_launch_description sample_env sample_state
      = (Returned l, st') ∧
    entities_of st' l = Some acts ∧
    length acts = 4 ∧
    acts =
      [ DeclareLaunchArgument "model"
          (Py.os_path_join sample_pkg_model ["urdf"; "uwrobot.urdf"])
          "URDF 的绝对路径";
        Node "joint_state_publisher" "joint_state_publisher" None None None;
        Node "robot_state_publisher" "robot_state_publisher"
          (Some [ {["robot_description" := PStr sample_urdf]} ]) None None;
        Node "rviz2" "rviz2" None
          (Some ["-d";
                 Py.os_path_join sample_pkg_model ["resource"; "resource.rviz"]])
          None ].
Proof.
  apply (visualization_four_actions sample_env sample_state
           sample_pkg_model sample_urdf);
    reflexivity.
Defined.

(** C3, as stated, fails: the URDF on disk has DOS line ends and decodes
    without error, both launchers return, and the ['robot_description']
    they pass to robot_state_publisher is not the content of the file: every
    carriage return is gone. *)
Lemma robot_description_not_verbatim :
  files crlf_state (Gazebo.urdf_path sample_pkg_model) = Some crlf_urdf ∧
  locale_decode sample_env crlf_urdf = Some crlf_urdf ∧
  (∃ l st' acts,
     Gazebo.generate_launch_description sample_env crlf_state
       = (Returned l, st') ∧
     entities_of st' l = Some acts ∧
     robot_descriptions acts = [PStr crlf_urdf_as_read]) ∧
  (∃ l st' acts,
     Rviz2.generate_launch_description sample_env crlf_state
       = (Returned l, st') ∧
     entities_of st' l = Some acts ∧
     robot_descriptions acts = [PStr crlf_urdf_as_read]) ∧
  PStr crlf_urdf_as_read ≠ PStr crlf_urdf.
Proof.
  split; [reflexivity|]. split; [reflexivity|].
  split; [|split; [|discriminate]].
  - destruct (Gazebo_returns sample_env crlf_state
                sample_pkg_gazebo sample_pkg_model crlf_urdf_as_read)
      as (st' & Hrun & Hents); try reflexivity.
    eexists _, st', _. split; [exact Hrun|]. split; [exact Hents|].
    apply robot_descriptions_Gazebo.
  - destruct (Rviz2_returns sample_env crlf_state
                sample_pkg_model crlf_urdf_as_read)
      as (st' & Hrun & Hents); try reflexivity.
    eexists _, st', _. split; [exact Hrun|]. split; [exact Hents|].
    apply robot_descriptions_Rviz2.
Qed.

(** C3, amended. When both packages resolve and the bytes [b] of the URDF
    decode to [d], the only parameter dictionary of the
    robot_state_publisher node of either launcher maps
    ['robot_description'] to the text-mode read of the file: [d] with every
    CR LF pair and every lone CR turned into LF, and nothing else changed.
    So a content [b] with a carriage return is never what is embedded, and
    a content [b] that decodes to itself and has no carriage return is
    embedded as it is. *)
Theorem robot_description_is_text_read env st pg pm b d :
  package_share env "gazebo_ros" = Some pg →
  package_share env "uwrobot_description" = Some pm →
  files st (Py.os_path_join pm ["urdf"; "uwrobot.urdf"]) = Some b →
  locale_decode env b = Some d →
  (∃ l st' acts dict,
     Gazebo.generate_launch_description env st = (Returned l, st') ∧
     entities_of st' l = Some acts ∧
     acts !! 0 = Some (Node "robot_state_publisher" "robot_state_publisher"
                         (Some [dict]) None None) ∧
     dict !! "robot_description" = Some (PStr (Py.universal_newlines d)) ∧
     robot_descriptions acts = [PStr (Py.universal_newlines d)]) ∧
  (∃ l st' acts dict,
     Rviz2.generate_launch_description env st = (Returned l, st') ∧
     entities_of st' l = Some acts ∧
     acts !! 2 = Some (Node "robot_state_publisher" "robot_state_publisher"
                         (Some [dict]) None None) ∧
     dict !! "robot_description" = Some (PStr (Py.universal_newlines d)) ∧
     robot_descriptions acts = [PStr (Py.universal_newlines d)]) ∧
  (Py.universal_newlines d = b → Py.has_CR b = false) ∧
  (d = b → Py.has_CR b = false → Py.universal_newlines d = b).
Proof.
  intros Hg Hm Hb Hd.
  assert (Ht : read_text env st (Gazebo.urdf_path pm)
               = Some (Py.universal_newlines d)).
  { apply read_text_Some. by exists b, d. }
  split; [|split; [|split]].
  - destruct (Gazebo_returns env st pg pm _ Hg Hm Ht) as (st' & Hrun & Hents).
    eexists _, st', _, _. split; [exact Hrun|]. split; [exact Hents|].
    split; [reflexivity|]. split; [apply lookup_insert_eq|].
    apply robot_descriptions_Gazebo.
  - destruct (Rviz2_returns env st pm _ Hm Ht) as (st' & Hrun & Hents).
    eexists _, st', _, _. split; [exact Hrun|]. split; [exact Hents|].
    split; [reflexivity|]. split; [apply lookup_singleton_eq|].
    apply robot_descriptions_Rviz2.
  - intros <-. apply universal_newlines_has_no_CR.
  - intros ->. apply universal_newlines_no_CR.
Qed.

(** The installation with DOS line ends: what both launchers embed. *)
Lemma robot_description_is_text_read_witness :
  (∃ l st' acts dict,
     Gazebo.generate_launch_description sample_env crlf_state
       = (Returned l, st') ∧
     entities_of st' l = Some acts ∧
     acts !! 0 = Some (Node "robot_state_publisher" "robot_state_publisher"
                         (Some [dict]) None None) ∧
     dict !! "robot_description"
       = Some (PStr (Py.universal_newlines crlf_urdf)) ∧
     robot_descriptions acts = [PStr (Py.universal_newlines crlf_urdf)]) ∧
  (∃ l st' acts dict,
     Rviz2.generate_launch_description sample_env crlf_state
       = (Returned l, st') ∧
     entities_of st' l = Some acts ∧
     acts !! 2 = Some (Node "robot_state_publisher" "robot_state_publisher"
                         (Some [dict]) None None) ∧
     dict !! "robot_description"
       = Some (PStr (Py.universal_newlines crlf_urdf)) ∧
     robot_descriptions acts = [PStr (Py.universal_newlines crlf_urdf)]) ∧
  (Py.universal_newlines crlf_urdf = crlf_urdf →
   Py.has_CR crlf_urdf = false) ∧
  (crlf_urdf = crlf_urdf → Py.has_CR crlf_urdf = false →
   Py.universal_newlines crlf_urdf = crlf_urdf).
Proof.
  apply (robot_description_is_text_read sample_env crlf_state
           sample_pkg_gazebo sample_pkg_model crlf_urdf crlf_urdf);
    reflexivity.
Defined.

(** C4. When the package resolves but there is no URDF at the resolved
    path, each launcher ends by raising: the simulation launcher
    FileNotFoundError (or PackageNotFoundError for gazebo_ros, raised even
    before the file is looked for), the visualization launcher
    FileNotFoundError.  No value is returned and no launch description is
    among the objects constructed before the error. *)
Theorem missing_urdf_raises env st pm :
  package_share env "uwrobot_description" = Some pm →
  files st (Py.os_path_join pm ["urdf"; "uwrobot.urdf"]) = None →
  (∃ e st' objs,
     Gazebo.generate_launch_description env st = (Raised e, st') ∧
     e = match package_share env "gazebo_ros" with
         | Some _ => FileNotFoundError (Gazebo.urdf_path pm)
         | None => PackageNotFoundError "gazebo_ros"
         end ∧
     heap st' = heap st ++ objs ∧
     Forall (λ o, is_launch_description o = false) objs) ∧
  (∃ st' objs,
     Rviz2.generate_launch_description env st
       = (Raised (FileNotFoundError (Rviz2.model_path pm)), st') ∧
     heap st' = heap st ++ objs ∧
     Forall (λ o, is_launch_description o = false) objs).
Proof.
  intros Hm Hf. split.
  - rewrite Gazebo_run, Hm.
    destruct (package_share env "gazebo_ros") as [pg|].
    + unfold Gazebo.urdf_path. rewrite Hf.
      eexists _, _, []. by rewrite heap_extend.
    + eexists _, _, []. by rewrite heap_extend.
  - rewrite Rviz2_run, Hm. cbv zeta.
    unfold Rviz2.model_path at 1. rewrite Hf.
    eexists _, [Rviz2Run.declared pm]. rewrite heap_extend.
    repeat split. by repeat constructor.
Qed.

(** The installation without the URDF: both launchers raise. *)
Lemma missing_urdf_raises_witness :
  (∃ e st' objs,
     Gazebo.generate_launch_description sample_env no_urdf_state
       = (Raised e, st') ∧
     e = match package_share sample_env "gazebo_ros" with
         | Some _ => FileNotFoundError (Gazebo.urdf_path sample_pkg_model)
         | None => PackageNotFoundError "gazebo_ros"
         end ∧
     heap st' = heap no_urdf_state ++ objs ∧
     Forall (λ o, is_launch_description o = false) objs) ∧
  (∃ st' objs,
     Rviz2.generate_launch_description sample_env no_urdf_state
       = (Raised (FileNotFoundError (Rviz2.model_path sample_pkg_model)), st') ∧
     heap st' = heap no_urdf_state ++ objs ∧
     Forall (λ o, is_launch_description o = false) objs).
Proof.
  apply (missing_urdf_raises sample_env no_urdf_state sample_pkg_model);
    reflexivity.
Defined.

(** C5. In the list the simulation launcher returns, the Gazebo include
    (the second action) receives as its [world] launch argument the share
    directory of [uwrobot_description] joined with [world] and
    [empty.world]. *)
Theorem simulation_world_argument env st pg pm t :
  package_share env "gazebo_ros" = Some pg →
  package_share env "uwrobot_description" = Some pm →
  read_text env st (Gazebo.urdf_path pm) = Some t →
  ∃ l st' acts src largs,
    Gazebo.generate_launch_description env st = (Returned l, st') ∧
    entities_of st' l = Some acts ∧
    acts !! 1 = Some (IncludeLaunchDescription src largs) ∧
    src = Py.os_path_join pg ["launch"; "gazebo.launch.py"] ∧
    largs = [("verbose", "true");
             ("world", Py.os_path_join pm ["world"; "empty.world"])] ∧
    Gazebo.world_path pm = Py.os_path_join pm ["world"; "empty.world"].
Proof.
  intros Hg Hm Ht.
  destruct (Gazebo_returns env st pg pm t Hg Hm Ht) as (st' & Hrun & Hents).
  by eexists _, st', _, _, _.
Qed.

(** The sample installation: the world argument of the Gazebo include. *)
Lemma simulation_world_argument_witness :
  ∃ l st' acts src largs,
    Gazebo.generate_launch_description sample_env sample_state
      = (Returned l, st') ∧
    entities_of st' l = Some acts ∧
    acts !! 1 = Some (IncludeLaunchDescription src largs) ∧
    src = Py.os_path_join sample_pkg_gazebo ["launch"; "gazebo.launch.py"] ∧
    largs = [("verbose", "true");
             ("world",
              Py.os_path_join sample_pkg_model ["world"; "empty.world"])] ∧
    Gazebo.world_path sample_pkg_model
      = Py.os_path_join sample_pkg_model ["world"; "empty.world"].
Proof.
  apply (simulation_world_argument sample_env sample_state
           sample_pkg_gazebo sample_pkg_model sample_urdf);
    reflexivity.
Defined.

(** C6. The list the simulation launcher returns ends with three
    controller_manager spawner nodes, whose single arguments are
    joint_state_broadcaster, velocity_controller and steering_controller in
    this order; no action before them is a controller spawner. *)
Theorem simulation_controller_spawners env st pg pm t :
  package_share env "gazebo_ros" = Some pg →
  package_share env "uwrobot_description" = Some pm →
  read_text env st (Gazebo.urdf_path pm) = Some t →
  ∃ l st' acts front,
    Gazebo.generate_launch_description env st = (Returned l, st') ∧
    entities_of st' l = Some acts ∧
    acts = front ++
      [ Node "controller_manager" "spawner" None
          (Some ["joint_state_broadcaster"]) (Some "screen");
        Node "controller_manager" "spawner" None
          (Some ["velocity_controller"]) (Some "screen");
        Node "controller_manager" "spawner" None
          (Some ["steering_controller"]) (Some "screen") ] ∧
    filter (λ a, is_controller_spawner a = true) front = [] ∧
    length (filter (λ a, is_controller_spawner a = true) acts) = 3.
Proof.
  intros Hg Hm Ht.
  destruct (Gazebo_returns env st pg pm t Hg Hm Ht) as (st' & Hrun & Hents).
  eexists _, st', _,
    [Gazebo.robot_state_publisher t;
     Gazebo.gazebo pg (Gazebo.world_path pm); Gazebo.spawn].
  by repeat split.
Qed.

(** The sample installation: the three spawners at the end of the list. *)
Lemma simulation_controller_spawners_witness :
  ∃ l st' acts front,
    Gazebo.generate_launch_description sample_env sample_state
      = (Returned l, st') ∧
    entities_of st' l = Some acts ∧
    acts = front ++
      [ Node "controller_manager" "spawner" None
          (Some ["joint_state_broadcaster"]) (Some "screen");
        Node "controller_manager" "spawner" None
          (Some ["velocity_controller"]) (Some "screen");
        Node "controller_manager" "spawner" None
          (Some ["steering_controller"]) (Some "screen") ] ∧
    filter (λ a, is_controller_spawner a = true) front = [] ∧
    length (filter (λ a, is_controller_spawner a = true) acts) = 3.
Proof.
  apply (simulation_controller_spawners sample_env sample_state
           sample_pkg_gazebo sample_pkg_model sample_urdf);
    reflexivity.
Defined.




(** C8. In every run of either launcher the store only grows: the objects
    that were there are kept as they were, and each object the run
    constructs is written once, at a fresh location, and is found
    unchanged in the store the run ends with.  When the run returns, the
    entities of the returned launch description are the actions in the
    order of the list in the [return] statement of the source. *)
Theorem launch_description_not_mutated env st :
  (∃ r st',
     Gazebo.generate_launch_description env st = (r, st') ∧
     written_once st st' ∧
     match r with
     | Returned l =>
         ∃ pg pm t,
           entities_of st' l =
             Some [ Gazebo.robot_state_publisher t;
                    Gazebo.gazebo pg (Gazebo.world_path pm);
                    Gazebo.spawn;
                    Gazebo.joint_state_spawner;
                    Gazebo.velocity_spawner;
                    Gazebo.steering_spawner ]
     | Raised _ => True
     end) ∧
  (∃ r st',
     Rviz2.generate_launch_description env st = (r, st') ∧
     written_once st st' ∧
     match r with
     | Returned l =>
         ∃ pm t,
           entities_of st' l =
             Some [ Rviz2.action_declare_arg_mode_path (Rviz2.model_path pm);
                    Rviz2.joint_state_publisher_node;
                    Rviz2.robot_state_publisher_node t;
                    Rviz2.rviz_node (Rviz2.rviz_config_file pm) ]
     | Raised _ => True
     end).
Proof.
  split.
  - rewrite Gazebo_run.
    destruct (package_share env "gazebo_ros") as [pg|].
    2: { eexists _, _. split; [done|]. split; [by eexists [], _|done]. }
    destruct (package_share env "uwrobot_description") as [pm|].
    2: { eexists _, _. split; [done|]. split; [by eexists [], _|done]. }
    destruct (files st _) as [b|].
    2: { eexists _, _. split; [done|]. split; [by eexists [], _|done]. }
    destruct (locale_decode env b) as [d|].
    2: { eexists _, _. split; [done|]. split; [by eexists [], _|done]. }
    cbv zeta. eexists _, _. split; [done|]. split.
    + eexists _, _. split; [done|]. split; [done|]. reflexivity.
    + eexists pg, pm, _. apply Gazebo_entities.
  - rewrite Rviz2_run.
    destruct (package_share env "uwrobot_description") as [pm|].
    2: { eexists _, _. split; [done|]. split; [by eexists [], _|done]. }
    cbv zeta. destruct (files st _) as [b|].
    2: { eexists _, _. split; [done|]. split; [|done].
         eexists _, _. split; [done|]. split; [done|].
         cbn. by rewrite Nat.add_0_r. }
    destruct (locale_decode env b) as [d|].
    2: { eexists _, _. split; [done|]. split; [|done].
         eexists _, _. split; [done|]. split; [done|].
         cbn. by rewrite Nat.add_0_r. }
    eexists _, _. split; [done|]. split.
    + eexists _, _. split; [done|]. split; [done|].
      unfold Rviz2Run.objects, news.
      cbn [constructed omap list_omap app imap compose file_events
           Nat.add].
      rewrite !Nat.add_0_r, <- !Nat.add_assoc. by cbn [Nat.add].
    + eexists pm, _. apply Rviz2_entities.
Qed.

(** C9. The visualization launcher does not look at the values supplied
    for the launch arguments: with the same package index, codec and file
    system, any two sets of values give the same outcome and final state,
    and the file opened is the default pkg_share/urdf/uwrobot.urdf. *)
Theorem model_argument_not_consumed env st lc1 lc2 :
  Rviz2.generate_launch_description (with_launch_configurations env lc1) st
  = Rviz2.generate_launch_description (with_launch_configurations env lc2) st
  ∧
  ∃ r st' evs,
    Rviz2.generate_launch_description (with_launch_configurations env lc1) st
      = (r, st') ∧
    events st' = events st ++ evs ∧
    opened evs =
      match package_share env "uwrobot_description" with
      | Some pkg_share => [Py.os_path_join pkg_share ["urdf"; "uwrobot.urdf"]]
      | None => []
      end.
Proof.
  split; [by rewrite !Rviz2_run|].
  rewrite Rviz2_run.
  cbn [with_launch_configurations package_share locale_decode].
  destruct (package_share env "uwrobot_description") as [pm|];
    [|by eexists _, _, _].
  cbv zeta. unfold Rviz2.model_path.
  destruct (files st _) as [b|]; [|by eexists _, _, _].
  destruct (locale_decode env b) as [d|]; by eexists _, _, _.
Qed.

(** C10. Both launchers read the URDF from the share directory of
    [uwrobot_description] joined with [urdf] and [uwrobot.urdf]: when, with
    the same environment and files, both return, the
    ['robot_description'] they embed is the same string, the text read
    from that path. *)
Theorem same_robot_description env st1 st2 l1 st1' l2 st2' :
  files st1 = files st2 →
  Gazebo.generate_launch_description env st1 = (Returned l1, st1') →
  Rviz2.generate_launch_description env st2 = (Returned l2, st2') →
  ∃ pm t acts1 acts2,
    package_share env "uwrobot_description" = Some pm ∧
    Gazebo.urdf_path pm = Py.os_path_join pm ["urdf"; "uwrobot.urdf"] ∧
    Rviz2.model_path pm = Py.os_path_join pm ["urdf"; "uwrobot.urdf"] ∧
    read_text env st1 (Py.os_path_join pm ["urdf"; "uwrobot.urdf"]) = Some t ∧
    entities_of st1' l1 = Some acts1 ∧
    entities_of st2' l2 = Some acts2 ∧
    robot_descriptions acts1 = [PStr t] ∧
    robot_descriptions acts2 = [PStr t].
Proof.
  intros Hf. rewrite Gazebo_run, Rviz2_run.
  destruct (package_share env "gazebo_ros") as [pg|]; [|done].
  destruct (package_share env "uwrobot_description") as [pm|] eqn:Hm; [|done].
  cbv zeta. unfold Rviz2.model_path at 1 2, Gazebo.urdf_path at 1 2.
  rewrite <- Hf.
  destruct (files st1 _) as [b|] eqn:Hb; [|done].
  destruct (locale_decode env b) as [d|] eqn:Hd; [|done].
  intros [= <- <-] [= <- <-].
  exists pm, (Py.universal_newlines d). eexists _, _.
  split; [done|]. split; [done|]. split; [done|].
  split; [apply read_text_Some; by exists b, d|].
  split; [apply Gazebo_entities|].
  split; [apply Rviz2_entities|].
  split; [apply robot_descriptions_Gazebo | apply robot_descriptions_Rviz2].
Qed.

(** The sample installation: both launchers embed the same string. *)
Lemma same_robot_description_witness :
  ∃ pm t acts1 acts2,
    package_share sample_env "uwrobot_description" = Some pm ∧
    Gazebo.urdf_path pm = Py.os_path_join pm ["urdf"; "uwrobot.urdf"] ∧
    Rviz2.model_path pm = Py.os_path_join pm ["urdf"; "uwrobot.urdf"] ∧
    read_text sample_env sample_state
      (Py.os_path_join pm ["urdf"; "uwrobot.urdf"]) = Some t ∧
    entities_of (Gazebo.generate_launch_description sample_env sample_state).2
      6 = Some acts1 ∧
    entities_of (Rviz2.generate_launch_description sample_env sample_state).2
      4 = Some acts2 ∧
    robot_descriptions acts1 = [PStr t] ∧
    robot_descriptions acts2 = [PStr t].
Proof.
  apply (same_robot_description sample_env sample_state sample_state
           6 (Gazebo.generate_launch_description sample_env sample_state).2
           4 (Rviz2.generate_launch_description sample_env sample_state).2);
    [reflexivity | vm_compute; reflexivity | vm_compute; reflexivity].
Defined.

(** ** Paths below the share directory *)

Lemma string_app_assoc (a b c : string) : (a +:+ b) +:+ c = a +:+ b +:+ c.
Proof.
  induction a as [|x a IH]; [done|].
  change (String x ((a +:+ b) +:+ c) = String x (a +:+ b +:+ c)).
  by f_equal.
Qed.

Lemma string_app_nil_r (a : string) : a +:+ "" = a.
Proof.
  induction a as [|x a IH]; [done|].
  change (String x (a +:+ "") = String x a). by f_equal.
Qed.

Lemma is_empty_app p c s : Py.is_empty (p +:+ String c s) = false.
Proof. by destruct p. Qed.

Lemma endswith_sep_app p c s :
  Py.endswith_sep (p +:+ String c s) = Py.endswith_sep (String c s).
Proof.
  induction p as [|x p IH]; [done|].
  change (String x p +:+ String c s) with (String x (p +:+ String c s)).
  cbn [Py.endswith_sep]. rewrite IH.
  by destruct p.
Qed.

(** Joining a relative component: the separator is added only after a
    non-empty path that does not end with one. *)
Lemma join_step_relative p c s :
  c ≠ "/"%char →
  Py.join_step p (String c s) = p +:+ sep_after p +:+ String c s.
Proof.
  intros Hc. unfold Py.join_step, sep_after. cbn [Py.startswith_sep].
  rewrite bool_decide_eq_false_2 by done.
  by destruct (Py.is_empty p || Py.endswith_sep p).
Qed.

Lemma join_two_relative p c1 s1 c2 s2 :
  c1 ≠ "/"%char → c2 ≠ "/"%char →
  Py.endswith_sep (String c1 s1) = false →
  Py.os_path_join p [String c1 s1; String c2 s2]
  = p +:+ sep_after p +:+ String c1 s1 +:+ "/" +:+ String c2 s2.
Proof.
  intros H1 H2 He. unfold Py.os_path_join. cbn [foldl].
  rewrite (join_step_relative p) by done.
  rewrite join_step_relative by done.
  unfold sep_after at 2.
  rewrite <- (string_app_assoc p (sep_after p) (String c1 s1)).
  rewrite is_empty_app, endswith_sep_app, He.
  cbn [orb]. by rewrite !string_app_assoc.
Qed.

Lemma prefix_app (p s : string) : String.prefix p (p +:+ s) = true.
Proof.
  induction p as [|x p IH]; [by destruct s|].
  change (String x p +:+ s) with (String x (p +:+ s)).
  cbn [String.prefix]. by destruct (ascii_dec x x).
Qed.

(** X8. Every path the launchers compute lies below the share directory
    it is derived from: the directory, a separator unless the directory is
    empty or already ends with one, and the fixed relative part.  The
    visualization launcher computes the same URDF path as the simulation
    launcher. *)
Theorem share_paths pg pm :
  Gazebo.urdf_path pm = pm +:+ sep_after pm +:+ "urdf/uwrobot.urdf" ∧
  Gazebo.world_path pm = pm +:+ sep_after pm +:+ "world/empty.world" ∧
  Py.os_path_join pg ["launch"; "gazebo.launch.py"]
    = pg +:+ sep_after pg +:+ "launch/gazebo.launch.py" ∧
  Rviz2.model_path pm = Gazebo.urdf_path pm ∧
  Rviz2.rviz_config_file pm
    = pm +:+ sep_after pm +:+ "resource/resource.rviz" ∧
  String.prefix pm (Gazebo.urdf_path pm) = true ∧
  String.prefix pm (Gazebo.world_path pm) = true ∧
  String.prefix pm (Rviz2.rviz_config_file pm) = true.
Proof.
  assert (Hu : Gazebo.urdf_path pm = pm +:+ sep_after pm +:+ "urdf/uwrobot.urdf")
    by by apply (join_two_relative pm "u" "rdf" "u" "wrobot.urdf").
  assert (Hw : Gazebo.world_path pm
               = pm +:+ sep_after pm +:+ "world/empty.world")
    by by apply (join_two_relative pm "w" "orld" "e" "mpty.world").
  assert (Hr : Rviz2.rviz_config_file pm
               = pm +:+ sep_after pm +:+ "resource/resource.rviz")
    by by apply (join_two_relative pm "r" "esource" "r" "esource.rviz").
  split; [done|]. split; [done|].
  split; [by apply (join_two_relative pg "l" "aunch" "g" "azebo.launch.py")|].
  split; [done|]. split; [done|].
  rewrite Hu, Hw, Hr. by rewrite !prefix_app.
Qed.

(** ** When the launchers return, and what they raise *)

Lemma heap_extend_nil st evs : heap (extend st [] evs) = heap st.
Proof. rewrite heap_extend. apply app_nil_r. Qed.

(** X1. The simulation launcher returns only after both packages have
    resolved and the URDF at the resolved path has been found and decoded:
    from a returning run one reads back the two share directories and the
    content of the file, and the returned description is the one built
    from them. *)
Theorem simulation_returns_only_if env st l st' :
  Gazebo.generate_launch_description env st = (Returned l, st') →
  ∃ pg pm b d,
    package_share env "gazebo_ros" = Some pg ∧
    package_share env "uwrobot_description" = Some pm ∧
    files st (Py.os_path_join pm ["urdf"; "uwrobot.urdf"]) = Some b ∧
    locale_decode env b = Some d ∧
    entities_of st' l
      = Some [ Gazebo.robot_state_publisher (Py.universal_newlines d);
               Gazebo.gazebo pg (Gazebo.world_path pm);
               Gazebo.spawn;
               Gazebo.joint_state_spawner;
               Gazebo.velocity_spawner;
               Gazebo.steering_spawner ].
Proof.
  rewrite Gazebo_run.
  destruct (package_share env "gazebo_ros") as [pg|]; [|done].
  destruct (package_share env "uwrobot_description") as [pm|]; [|done].
  unfold Gazebo.urdf_path.
  destruct (files st _) as [b|] eqn:Hb; [|done].
  destruct (locale_decode env b) as [d|] eqn:Hd; [|done].
  cbv zeta. intros [= <- <-].
  exists pg, pm, b, d. do 4 (split; [done|]). apply Gazebo_entities.
Qed.

(** The sample installation, where the simulation launcher returns. *)
Lemma simulation_returns_only_if_witness :
  ∃ pg pm b d,
    package_share sample_env "gazebo_ros" = Some pg ∧
    package_share sample_env "uwrobot_description" = Some pm ∧
    files sample_state (Py.os_path_join pm ["urdf"; "uwrobot.urdf"])
      = Some b ∧
    locale_decode sample_env b = Some d ∧
    entities_of
      (Gazebo.generate_launch_description sample_env sample_state).2 6
      = Some [ Gazebo.robot_state_publisher (Py.universal_newlines d);
               Gazebo.gazebo pg (Gazebo.world_path pm);
               Gazebo.spawn;
               Gazebo.joint_state_spawner;
               Gazebo.velocity_spawner;
               Gazebo.steering_spawner ].
Proof.
  apply (simulation_returns_only_if sample_env sample_state 6
           (Gazebo.generate_launch_description sample_env sample_state).2).
  vm_compute; reflexivity.
Defined.

(** X2. The visualization launcher returns only after
    [uwrobot_description] has resolved and the URDF at the resolved path
    has been found and decoded; the returned description is the one built
    from that directory and that content.  Nothing is asked of
    [gazebo_ros]. *)
Theorem visualization_returns_only_if env st l st' :
  Rviz2.generate_launch_description env st = (Returned l, st') →
  ∃ pm b d,
    package_share env "uwrobot_description" = Some pm ∧
    files st (Py.os_path_join pm ["urdf"; "uwrobot.urdf"]) = Some b ∧
    locale_decode env b = Some d ∧
    entities_of st' l
      = Some [ Rviz2.action_declare_arg_mode_path (Rviz2.model_path pm);
               Rviz2.joint_state_publisher_node;
               Rviz2.robot_state_publisher_node (Py.universal_newlines d);
               Rviz2.rviz_node (Rviz2.rviz_config_file pm) ].
Proof.
  rewrite Rviz2_run.
  destruct (package_share env "uwrobot_description") as [pm|]; [|done].
  cbv zeta. unfold Rviz2.model_path at 1 2 3 4 5.
  destruct (files st _) as [b|] eqn:Hb; [|done].
  destruct (locale_decode env b) as [d|] eqn:Hd; [|done].
  intros [= <- <-].
  exists pm, b, d. do 3 (split; [done|]). apply Rviz2_entities.
Qed.

(** An installation without gazebo_ros, where the visualization launcher
    returns. *)
Lemma visualization_returns_only_if_witness :
  ∃ pm b d,
    package_share no_gazebo_env "uwrobot_description" = Some pm ∧
    files sample_state (Py.os_path_join pm ["urdf"; "uwrobot.urdf"])
      = Some b ∧
    locale_decode no_gazebo_env b = Some d ∧
    entities_of
      (Rviz2.generate_launch_description no_gazebo_env sample_state).2 4
      = Some [ Rviz2.action_declare_arg_mode_path (Rviz2.model_path pm);
               Rviz2.joint_state_publisher_node;
               Rviz2.robot_state_publisher_node (Py.universal_newlines d);
               Rviz2.rviz_node (Rviz2.rviz_config_file pm) ].
Proof.
  apply (visualization_returns_only_if no_gazebo_env sample_state 4
           (Rviz2.generate_launch_description no_gazebo_env sample_state).2).
  vm_compute; reflexivity.
Defined.

(** X3. When a package is missing from the index the simulation launcher
    raises PackageNotFoundError for the first missing one in the order
    gazebo_ros, uwrobot_description.  Its effects are the lookups alone:
    one when gazebo_ros is missing (uwrobot_description is then not looked
    up), two otherwise; its own [open] is not reached, so the URDF is not
    opened, and nothing is constructed. *)
Theorem simulation_missing_package env st :
  package_share env "gazebo_ros" = None ∨
  package_share env "uwrobot_description" = None →
  ∃ st' evs,
    Gazebo.generate_launch_description env st
      = (Raised (PackageNotFoundError
                   (match package_share env "gazebo_ros" with
                   | Some _ => "uwrobot_description"
                   | None => "gazebo_ros"
                   end)), st') ∧
    heap st' = heap st ∧
    files st' = files st ∧
    events st' = events st ++ evs ∧
    evs = match package_share env "gazebo_ros" with
          | Some _ => [EvResolve "gazebo_ros"; EvResolve "uwrobot_description"]
          | None => [EvResolve "gazebo_ros"]
          end.
Proof.
  intros Hmiss. rewrite Gazebo_run.
  destruct (package_share env "gazebo_ros") as [pg|].
  - destruct Hmiss as [|Hm]; [done|]. rewrite Hm.
    eexists _, _. by rewrite heap_extend_nil.
  - eexists _, _. by rewrite heap_extend_nil.
Qed.

(** Without gazebo_ros: only gazebo_ros is looked up. *)
Lemma simulation_missing_package_witness :
  ∃ st' evs,
    Gazebo.generate_launch_description no_gazebo_env sample_state
      = (Raised (PackageNotFoundError
                   (match package_share no_gazebo_env "gazebo_ros" with
                   | Some _ => "uwrobot_description"
                   | None => "gazebo_ros"
                   end)), st') ∧
    heap st' = heap sample_state ∧
    files st' = files sample_state ∧
    events st' = events sample_state ++ evs ∧
    evs = match package_share no_gazebo_env "gazebo_ros" with
          | Some _ => [EvResolve "gazebo_ros"; EvResolve "uwrobot_description"]
          | None => [EvResolve "gazebo_ros"]
          end.
Proof.
  apply (simulation_missing_package no_gazebo_env sample_state).
  left. reflexivity.
Defined.

(** X4. When [uwrobot_description] is missing the visualization launcher
    raises PackageNotFoundError for it, having opened no file and
    constructed nothing, not even the declaration of the launch argument. *)
Theorem visualization_missing_package env st :
  package_share env "uwrobot_description" = None →
  ∃ st',
    Rviz2.generate_launch_description env st
      = (Raised (PackageNotFoundError "uwrobot_description"), st') ∧
    heap st' = heap st ∧
    files st' = files st ∧
    events st' = events st ++ [EvResolve "uwrobot_description"].
Proof.
  intros Hm. rewrite Rviz2_run, Hm.
  eexists. by rewrite heap_extend_nil.
Qed.

Lemma visualization_missing_package_witness :
  ∃ st',
    Rviz2.generate_launch_description no_model_env sample_state
      = (Raised (PackageNotFoundError "uwrobot_description"), st') ∧
    heap st' = heap sample_state ∧
    files st' = files sample_state ∧
    events st' = events sample_state ++ [EvResolve "uwrobot_description"].
Proof.
  apply (visualization_missing_package no_model_env sample_state).
  reflexivity.
Defined.

Lemma events_extend_drop st objs evs :
  drop (length (events st)) (events (extend st objs evs)) = evs.
Proof. unfold extend; cbn [events]. by rewrite drop_app_length. Qed.

(** X5. When the URDF exists but does not decode, both launchers raise
    UnicodeDecodeError after the file has been opened, read and closed:
    the [with] block closes it on the way out.  The simulation launcher
    has then constructed nothing, the visualization launcher only the
    declaration of the launch argument. *)
Theorem undecodable_urdf_raises env st pg pm b :
  package_share env "gazebo_ros" = Some pg →
  package_share env "uwrobot_description" = Some pm →
  files st (Py.os_path_join pm ["urdf"; "uwrobot.urdf"]) = Some b →
  locale_decode env b = None →
  let p := Py.os_path_join pm ["urdf"; "uwrobot.urdf"] in
  (∃ st',
     Gazebo.generate_launch_description env st
       = (Raised (UnicodeDecodeError p), st') ∧
     heap st' = heap st ∧
     events st' = events st ++
       [EvResolve "gazebo_ros"; EvResolve "uwrobot_description";
        EvOpen p; EvRead p; EvClose p]) ∧
  (∃ st',
     Rviz2.generate_launch_description env st
       = (Raised (UnicodeDecodeError p), st') ∧
     heap st' = heap st ++
       [OAction (DeclareLaunchArgument "model" p "URDF 的绝对路径")] ∧
     closed (drop (length (events st)) (events st')) = [p]).
Proof.
  intros Hg Hm Hb Hd p. subst p. split.
  - rewrite Gazebo_run, Hg, Hm. unfold Gazebo.urdf_path.
    rewrite Hb, Hd. eexists. by rewrite heap_extend_nil.
  - rewrite Rviz2_run, Hm. cbv zeta. unfold Rviz2.model_path.
    rewrite Hb, Hd. eexists. split; [done|]. split; [done|].
    rewrite events_extend_drop. reflexivity.
Qed.

(** The installation with a URDF that is not 7-bit text. *)
Lemma undecodable_urdf_raises_witness :
  let p := Py.os_path_join sample_pkg_model ["urdf"; "uwrobot.urdf"] in
  (∃ st',
     Gazebo.generate_launch_description sample_env binary_state
       = (Raised (UnicodeDecodeError p), st') ∧
     heap st' = heap binary_state ∧
     events st' = events binary_state ++
       [EvResolve "gazebo_ros"; EvResolve "uwrobot_description";
        EvOpen p; EvRead p; EvClose p]) ∧
  (∃ st',
     Rviz2.generate_launch_description sample_env binary_state
       = (Raised (UnicodeDecodeError p), st') ∧
     heap st' = heap binary_state ++
       [OAction (DeclareLaunchArgument "model" p "URDF 的绝对路径")] ∧
     closed (drop (length (events binary_state)) (events st')) = [p]).
Proof.
  apply (undecodable_urdf_raises sample_env binary_state
           sample_pkg_gazebo sample_pkg_model binary_urdf);
    reflexivity.
Defined.


(** X7. When the URDF is missing the two launchers stop at different
    points: the simulation launcher has constructed nothing, the
    visualization launcher has already constructed the declaration of the
    launch argument [model], whose default value is the missing path. *)
Theorem missing_urdf_partial_construction env st pg pm :
  package_share env "gazebo_ros" = Some pg →
  package_share env "uwrobot_description" = Some pm →
  files st (Py.os_path_join pm ["urdf"; "uwrobot.urdf"]) = None →
  let p := Py.os_path_join pm ["urdf"; "uwrobot.urdf"] in
  (∃ st',
     Gazebo.generate_launch_description env st
       = (Raised (FileNotFoundError p), st') ∧
     heap st' = heap st ∧
     events st' = events st ++
       [EvResolve "gazebo_ros"; EvResolve "uwrobot_description"; EvOpen p]) ∧
  (∃ st',
     Rviz2.generate_launch_description env st
       = (Raised (FileNotFoundError p), st') ∧
     heap st' = heap st ++
       [OAction (DeclareLaunchArgument "model" p "URDF 的绝对路径")] ∧
     events st' = events st ++
       [EvResolve "uwrobot_description";
        EvNew (length (heap st))
          (OAction (DeclareLaunchArgument "model" p "URDF 的绝对路径"));
        EvOpen p]).
Proof.
  intros Hg Hm Hf p. subst p. split.
  - rewrite Gazebo_run, Hg, Hm. unfold Gazebo.urdf_path. rewrite Hf.
    eexists. by rewrite heap_extend_nil.
  - rewrite Rviz2_run, Hm. cbv zeta. unfold Rviz2.model_path. rewrite Hf.
    by eexists.
Qed.

Lemma missing_urdf_partial_construction_witness :
  let p := Py.os_path_join sample_pkg_model ["urdf"; "uwrobot.urdf"] in
  (∃ st',
     Gazebo.generate_launch_description sample_env no_urdf_state
       = (Raised (FileNotFoundError p), st') ∧
     heap st' = heap no_urdf_state ∧
     events st' = events no_urdf_state ++
       [EvResolve "gazebo_ros"; EvResolve "uwrobot_description"; EvOpen p]) ∧
  (∃ st',
     Rviz2.generate_launch_description sample_env no_urdf_state
       = (Raised (FileNotFoundError p), st') ∧
     heap st' = heap no_urdf_state ++
       [OAction (DeclareLaunchArgument "model" p "URDF 的绝对路径")] ∧
     events st' = events no_urdf_state ++
       [EvResolve "uwrobot_description";
        EvNew (length (heap no_urdf_state))
          (OAction (DeclareLaunchArgument "model" p "URDF 的绝对路径"));
        EvOpen p]).
Proof.
  apply (missing_urdf_partial_construction sample_env no_urdf_state
           sample_pkg_gazebo sample_pkg_model);
    reflexivity.
Defined.

(** ** What the returned descriptions hold *)

Lemma universal_newlines_length s :
  (String.length (Py.universal_newlines s) ≤ String.length s)%nat.
Proof.
  induction s as [|c s IH]; [done|].
  cbn [Py.universal_newlines].
  destruct (bool_decide (c = Py.CR)).
  - destruct s as [|c' s']; [done|].
    destruct (bool_decide (c' = Py.LF)) eqn:Hc'.
    + cbn [Py.universal_newlines] in IH.
      destruct (bool_decide (c' = Py.CR)) eqn:Hcr.
      * apply bool_decide_eq_true in Hc' as ->. done.
      * cbn [String.length] in *. lia.
    + cbn [String.length] in *. lia.
  - cbn [String.length]. lia.
Qed.

(** X9. The ['robot_description'] either launcher hands to
    robot_state_publisher never contains a carriage return, whatever the
    line ends of the URDF on disk, and is never longer than the decoded
    content. *)
Theorem robot_description_has_no_CR env st pg pm b d :
  package_share env "gazebo_ros" = Some pg →
  package_share env "uwrobot_description" = Some pm →
  files st (Py.os_path_join pm ["urdf"; "uwrobot.urdf"]) = Some b →
  locale_decode env b = Some d →
  ∃ t,
    (∃ l st' acts,
       Gazebo.generate_launch_description env st = (Returned l, st') ∧
       entities_of st' l = Some acts ∧
       robot_descriptions acts = [PStr t]) ∧
    (∃ l st' acts,
       Rviz2.generate_launch_description env st = (Returned l, st') ∧
       entities_of st' l = Some acts ∧
       robot_descriptions acts = [PStr t]) ∧
    Py.has_CR t = false ∧
    (String.length t ≤ String.length d)%nat.
Proof.
  intros Hg Hm Hb Hd.
  assert (Ht : read_text env st (Gazebo.urdf_path pm)
               = Some (Py.universal_newlines d)).
  { apply read_text_Some. by exists b, d. }
  exists (Py.universal_newlines d). split; [|split; [|split]].
  - destruct (Gazebo_returns env st pg pm _ Hg Hm Ht) as (st' & Hrun & Hents).
    eexists _, st', _. split; [exact Hrun|]. split; [exact Hents|].
    apply robot_descriptions_Gazebo.
  - destruct (Rviz2_returns env st pm _ Hm Ht) as (st' & Hrun & Hents).
    eexists _, st', _. split; [exact Hrun|]. split; [exact Hents|].
    apply robot_descriptions_Rviz2.
  - apply universal_newlines_has_no_CR.
  - apply universal_newlines_length.
Qed.

Lemma robot_description_has_no_CR_witness :
  ∃ t,
    (∃ l st' acts,
       Gazebo.generate_launch_description sample_env crlf_state
         = (Returned l, st') ∧
       entities_of st' l = Some acts ∧
       robot_descriptions acts = [PStr t]) ∧
    (∃ l st' acts,
       Rviz2.generate_launch_description sample_env crlf_state
         = (Returned l, st') ∧
       entities_of st' l = Some acts ∧
       robot_descriptions acts = [PStr t]) ∧
    Py.has_CR t = false ∧
    (String.length t ≤ String.length crlf_urdf)%nat.
Proof.
  apply (robot_description_has_no_CR sample_env crlf_state
           sample_pkg_gazebo sample_pkg_model crlf_urdf crlf_urdf);
    reflexivity.
Defined.

(** X10. The parameter dictionaries the two launchers pass to
    robot_state_publisher differ in ['use_sim_time'] only: the simulation
    launcher sets it to [True] beside ['robot_description'], the
    visualization launcher passes ['robot_description'] alone, and removing
    ['use_sim_time'] from the former gives the latter. *)
Theorem use_sim_time_only_in_simulation env st pg pm t :
  package_share env "gazebo_ros" = Some pg →
  package_share env "uwrobot_description" = Some pm →
  read_text env st (Py.os_path_join pm ["urdf"; "uwrobot.urdf"]) = Some t →
  ∃ l1 st1 acts1 l2 st2 acts2 (sim viz : gmap string ParamValue),
    Gazebo.generate_launch_description env st = (Returned l1, st1) ∧
    entities_of st1 l1 = Some acts1 ∧
    Rviz2.generate_launch_description env st = (Returned l2, st2) ∧
    entities_of st2 l2 = Some acts2 ∧
    acts1 ≫= node_parameters = [sim] ∧
    acts2 ≫= node_parameters = [viz] ∧
    sim !! "use_sim_time" = Some (PBool true) ∧
    viz !! "use_sim_time" = None ∧
    dom sim = ({["robot_description"; "use_sim_time"]} : gset string) ∧
    dom viz = ({["robot_description"]} : gset string) ∧
    delete "use_sim_time" sim = viz.
Proof.
  intros Hg Hm Ht.
  destruct (Gazebo_returns env st pg pm t Hg Hm Ht) as (st1 & Hrun1 & Hents1).
  destruct (Rviz2_returns env st pm t Hm Ht) as (st2 & Hrun2 & Hents2).
  eexists _, st1, _, _, st2, _, _, _.
  split; [exact Hrun1|]. split; [exact Hents1|].
  split; [exact Hrun2|]. split; [exact Hents2|].
  split; [reflexivity|]. split; [reflexivity|].
  split; [by rewrite lookup_insert_ne, lookup_insert_eq|].
  split; [by rewrite lookup_singleton_ne|].
  split; [rewrite !dom_insert_L, dom_empty_L; set_solver|].
  split; [by rewrite dom_singleton_L|].
  rewrite delete_insert_ne by done. 
  rewrite delete_insert_eq, delete_empty. reflexivity.
Qed.

Lemma use_sim_time_only_in_simulation_witness :
  ∃ l1 st1 acts1 l2 st2 acts2 (sim viz : gmap string ParamValue),
    Gazebo.generate_launch_description sample_env sample_state
      = (Returned l1, st1) ∧
    entities_of st1 l1 = Some acts1 ∧
    Rviz2.generate_launch_description sample_env sample_state
      = (Returned l2, st2) ∧
    entities_of st2 l2 = Some acts2 ∧
    acts1 ≫= node_parameters = [sim] ∧
    acts2 ≫= node_parameters = [viz] ∧
    sim !! "use_sim_time" = Some (PBool true) ∧
    viz !! "use_sim_time" = None ∧
    dom sim = ({["robot_description"; "use_sim_time"]} : gset string) ∧
    dom viz = ({["robot_description"]} : gset string) ∧
    delete "use_sim_time" sim = viz.
Proof.
  apply (use_sim_time_only_in_simulation sample_env sample_state
           sample_pkg_gazebo sample_pkg_model sample_urdf);
    reflexivity.
Defined.

(** X11. A launch description either launcher returns is the last object
    of the store and refers only to actions the same run constructed:
    its entities are pairwise distinct locations, none of them a location
    of the store the run started from, and each holds an action. *)
Theorem entities_fresh_and_distinct env st :
  (∃ r st',
     Gazebo.generate_launch_description env st = (r, st') ∧
     match r with
     | Returned l =>
         ∃ es,
           entity_locs st' l = Some es ∧
           length es = 6 ∧
           S l = length (heap st') ∧
           NoDup es ∧
           Forall (λ e, (length (heap st) ≤ e < l)%nat ∧
                        is_Some (action_at st' e)) es
     | Raised _ => True
     end) ∧
  (∃ r st',
     Rviz2.generate_launch_description env st = (r, st') ∧
     match r with
     | Returned l =>
         ∃ es,
           entity_locs st' l = Some es ∧
           length es = 4 ∧
           S l = length (heap st') ∧
           NoDup es ∧
           Forall (λ e, (length (heap st) ≤ e < l)%nat ∧
                        is_Some (action_at st' e)) es
     | Raised _ => True
     end).
Proof.
  split.
  - rewrite Gazebo_run.
    destruct (package_share env "gazebo_ros") as [pg|]; [|by eexists _, _].
    destruct (package_share env "uwrobot_description") as [pm|];
      [|by eexists _, _].
    destruct (files st _) as [b|]; [|by eexists _, _].
    destruct (locale_decode env b) as [d|]; [|by eexists _, _].
    cbv zeta. eexists _, _. split; [reflexivity|].
    set (n := length (heap st)).
    exists [n; n + 1; n + 2; n + 3; n + 4; n + 5].
    split.
    { unfold entity_locs.
      by rewrite (lookup_extend_new _ _ _ (n + 6) 6 eq_refl). }
    split; [done|].
    split; [rewrite heap_extend, length_app; cbn; lia|].
    split.
    { apply NoDup_alt. intros i j x Hi Hj.
      do 6 (destruct i as [|i]; [cbn in Hi; injection Hi as <-;
              do 6 (destruct j as [|j];
                      [cbn in Hj; first [lia | injection Hj; lia]|]);
              by cbn in Hj|]).
      by cbn in Hi. }
    repeat (apply Forall_cons; split;
      [split; [lia|]; eexists;
       first [ by eapply (action_at_new _ _ _ _ 0); [subst n; lia|]
             | by eapply (action_at_new _ _ _ _ 1); [subst n; lia|]
             | by eapply (action_at_new _ _ _ _ 2); [subst n; lia|]
             | by eapply (action_at_new _ _ _ _ 3); [subst n; lia|]
             | by eapply (action_at_new _ _ _ _ 4); [subst n; lia|]
             | by eapply (action_at_new _ _ _ _ 5); [subst n; lia|] ]|]).
    apply Forall_nil_2.
  - rewrite Rviz2_run.
    destruct (package_share env "uwrobot_description") as [pm|];
      [|by eexists _, _].
    cbv zeta. destruct (files st _) as [b|]; [|by eexists _, _].
    destruct (locale_decode env b) as [d|]; [|by eexists _, _].
    eexists _, _. split; [reflexivity|].
    set (n := length (heap st)).
    exists [n; n + 2; n + 1; n + 3].
    split.
    { unfold entity_locs.
      by rewrite (lookup_extend_new _ _ _ (n + 4) 4 eq_refl). }
    split; [done|].
    split; [rewrite heap_extend, length_app; cbn; lia|].
    split.
    { apply NoDup_alt. intros i j x Hi Hj.
      do 4 (destruct i as [|i]; [cbn in Hi; injection Hi as <-;
              do 4 (destruct j as [|j];
                      [cbn in Hj; first [lia | injection Hj; lia]|]);
              by cbn in Hj|]).
      by cbn in Hi. }
    repeat (apply Forall_cons; split;
      [split; [lia|]; eexists;
       first [ by eapply (action_at_new _ _ _ _ 0); [subst n; lia|]
             | by eapply (action_at_new _ _ _ _ 1); [subst n; lia|]
             | by eapply (action_at_new _ _ _ _ 2); [subst n; lia|]
             | by eapply (action_at_new _ _ _ _ 3); [subst n; lia|]
             | by eapply (action_at_new _ _ _ _ 4); [subst n; lia|]
             | by eapply (action_at_new _ _ _ _ 5); [subst n; lia|] ]|]).
    apply Forall_nil_2.
Qed.

(** ** The two launchers side by side *)

(** X12. With the same package index, codec and files, the visualization
    launcher returns whenever the simulation launcher does. *)
Theorem simulation_returns_visualization_returns env st1 st2 l1 st1' :
  files st1 = files st2 →
  Gazebo.generate_launch_description env st1 = (Returned l1, st1') →
  ∃ l2 st2',
    Rviz2.generate_launch_description env st2 = (Returned l2, st2').
Proof.
  intros Hf. rewrite Gazebo_run, Rviz2_run.
  destruct (package_share env "gazebo_ros") as [pg|]; [|done].
  destruct (package_share env "uwrobot_description") as [pm|]; [|done].
  cbv zeta. unfold Rviz2.model_path, Gazebo.urdf_path. rewrite <- Hf.
  destruct (files st1 _) as [b|]; [|done].
  destruct (locale_decode env b) as [d|]; [|done].
  intros _. by eexists _, _.
Qed.

Lemma simulation_returns_visualization_returns_witness :
  ∃ l2 st2',
    Rviz2.generate_launch_description sample_env busy_state
      = (Returned l2, st2').
Proof.
  apply (simulation_returns_visualization_returns sample_env
           sample_state busy_state 6
           (Gazebo.generate_launch_description sample_env sample_state).2);
    [reflexivity | vm_compute; reflexivity].
Defined.

(** The converse fails: without gazebo_ros only the visualization
    launcher returns. *)
Example visualization_alone_returns :
  (∃ l st', Rviz2.generate_launch_description no_gazebo_env sample_state
            = (Returned l, st')) ∧
  ¬ (∃ l st', Gazebo.generate_launch_description no_gazebo_env sample_state
              = (Returned l, st')).
Proof.
  split.
  - destruct (Rviz2_returns no_gazebo_env sample_state
                sample_pkg_model sample_urdf eq_refl eq_refl)
      as (st' & Hrun & _).
    by eexists _, st'.
  - intros (l & st' & Hrun). rewrite Gazebo_run in Hrun.
    change (package_share no_gazebo_env "gazebo_ros")
      with (@None string) in Hrun.
    done.
Qed.

(** X13. In the visualization launcher the default value declared for the
    launch argument [model] is the very path the launcher opens: whenever
    the package resolves, the first object constructed is the declaration,
    and its default value is the one path opened, whether or not a file is
    there. *)
Theorem declared_default_is_opened_path env st pm :
  package_share env "uwrobot_description" = Some pm →
  ∃ r st' evs p,
    Rviz2.generate_launch_description env st = (r, st') ∧
    events st' = events st ++ evs ∧
    heap st' !! length (heap st)
      = Some (OAction (DeclareLaunchArgument "model" p "URDF 的绝对路径")) ∧
    opened evs = [p].
Proof.
  intros Hm. rewrite Rviz2_run, Hm. cbv zeta.
  destruct (files st _) as [b|].
  - destruct (locale_decode env b) as [d|].
    + eexists _, _, _, _. split; [reflexivity|]. split; [reflexivity|].
      split; [|reflexivity].
      by rewrite (lookup_extend_new _ _ _ _ 0 (eq_sym (Nat.add_0_r _))).
    + eexists _, _, _, _. split; [reflexivity|]. split; [reflexivity|].
      split; [|reflexivity].
      by rewrite (lookup_extend_new _ _ _ _ 0 (eq_sym (Nat.add_0_r _))).
  - eexists _, _, _, _. split; [reflexivity|]. split; [reflexivity|].
    split; [|reflexivity].
    by rewrite (lookup_extend_new _ _ _ _ 0 (eq_sym (Nat.add_0_r _))).
Qed.

Lemma declared_default_is_opened_path_witness :
  ∃ r st' evs p,
    Rviz2.generate_launch_description sample_env no_urdf_state = (r, st') ∧
    events st' = events no_urdf_state ++ evs ∧
    heap st' !! length (heap no_urdf_state)
      = Some (OAction (DeclareLaunchArgument "model" p "URDF 的绝对路径")) ∧
    opened evs = [p].
Proof.
  apply (declared_default_is_opened_path sample_env no_urdf_state
           sample_pkg_model).
  reflexivity.
Defined.

(** X14. The order of the effects of a returning run of the simulation
    launcher: gazebo_ros is resolved, then uwrobot_description; the URDF
    is opened, read and closed; only then are the seven objects
    constructed, one after the other, at consecutive locations. *)
Theorem simulation_effect_order env st pg pm t :
  package_share env "gazebo_ros" = Some pg →
  package_share env "uwrobot_description" = Some pm →
  read_text env st (Py.os_path_join pm ["urdf"; "uwrobot.urdf"]) = Some t →
  let p := Py.os_path_join pm ["urdf"; "uwrobot.urdf"] in
  ∃ l st' objs,
    Gazebo.generate_launch_description env st = (Returned l, st') ∧
    heap st' = heap st ++ objs ∧
    length objs = 7 ∧
    events st' = events st ++
      [EvResolve "gazebo_ros"; EvResolve "uwrobot_description";
       EvOpen p; EvRead p; EvClose p] ++
      imap (λ i o, EvNew (length (heap st) + i) o) objs.
Proof.
  intros Hg Hm (b & d & Hb & Hd & ->)%read_text_Some p. subst p.
  rewrite Gazebo_run, Hg, Hm. unfold Gazebo.urdf_path. rewrite Hb, Hd.
  cbv zeta. by eexists _, _, _.
Qed.

Lemma simulation_effect_order_witness :
  let p := Py.os_path_join sample_pkg_model ["urdf"; "uwrobot.urdf"] in
  ∃ l st' objs,
    Gazebo.generate_launch_description sample_env sample_state
      = (Returned l, st') ∧
    heap st' = heap sample_state ++ objs ∧
    length objs = 7 ∧
    events st' = events sample_state ++
      [EvResolve "gazebo_ros"; EvResolve "uwrobot_description";
       EvOpen p; EvRead p; EvClose p] ++
      imap (λ i o, EvNew (length (heap sample_state) + i) o) objs.
Proof.
  apply (simulation_effect_order sample_env sample_state
           sample_pkg_gazebo sample_pkg_model sample_urdf);
    reflexivity.
Defined.

(** X15. The order of the effects of a returning run of the visualization
    launcher: the package is resolved and the launch argument declared
    before the URDF is opened, read and closed; the three nodes and the
    launch description are constructed after it. *)
Theorem visualization_effect_order env st pm t :
  package_share env "uwrobot_description" = Some pm →
  read_text env st (Py.os_path_join pm ["urdf"; "uwrobot.urdf"]) = Some t →
  let p := Py.os_path_join pm ["urdf"; "uwrobot.urdf"] in
  let n := length (heap st) in
  ∃ l st' declared objs,
    Rviz2.generate_launch_description env st = (Returned l, st') ∧
    heap st' = heap st ++ declared :: objs ∧
    declared = OAction (DeclareLaunchArgument "model" p "URDF 的绝对路径") ∧
    length objs = 4 ∧
    events st' = events st ++
      [EvResolve "uwrobot_description"; EvNew n declared;
       EvOpen p; EvRead p; EvClose p] ++
      imap (λ i o, EvNew (n + 1 + i) o) objs.
Proof.
  intros Hm (b & d & Hb & Hd & ->)%read_text_Some p n. subst p n.
  rewrite Rviz2_run, Hm. cbv zeta. unfold Rviz2.model_path. rewrite Hb, Hd.
  by eexists _, _, _, _.
Qed.

Lemma visualization_effect_order_witness :
  let p := Py.os_path_join sample_pkg_model ["urdf"; "uwrobot.urdf"] in
  let n := length (heap sample_state) in
  ∃ l st' declared objs,
    Rviz2.generate_launch_description sample_env sample_state
      = (Returned l, st') ∧
    heap st' = heap sample_state ++ declared :: objs ∧
    declared = OAction (DeclareLaunchArgument "model" p "URDF 的绝对路径") ∧
    length objs = 4 ∧
    events st' = events sample_state ++
      [EvResolve "uwrobot_description"; EvNew n declared;
       EvOpen p; EvRead p; EvClose p] ++
      imap (λ i o, EvNew (n + 1 + i) o) objs.
Proof.
  apply (visualization_effect_order sample_env sample_state
           sample_pkg_model sample_urdf);
    reflexivity.
Defined.

(** ** Running the launchers one after the other *)

Lemma lookup_extend_old st objs evs l o :
  heap st !! l = Some o → heap (extend st objs evs) !! l = Some o.
Proof. intros H. rewrite heap_extend. by apply lookup_app_l_Some. Qed.

Lemma action_at_extend st objs evs l a :
  action_at st l = Some a → action_at (extend st objs evs) l = Some a.
Proof.
  unfold action_at. destruct (heap st !! l) as [o|] eqn:Hl; [|done].
  rewrite heap_extend, (lookup_app_l_Some _ _ _ _ Hl). done.
Qed.

(** A launch description keeps its actions when the store grows. *)
Lemma entities_of_extend st objs evs l acts :
  entities_of st l = Some acts →
  entities_of (extend st objs evs) l = Some acts.
Proof.
  unfold entities_of.
  destruct (heap st !! l) as [[a|es]|] eqn:Hl; try done.
  rewrite heap_extend, (lookup_app_l_Some _ _ _ _ Hl).
  rewrite !mapM_Some. intros Hall.
  eapply Forall2_impl; [exact Hall|].
  intros e a. apply action_at_extend.
Qed.

(** X16. Run one after the other in the same process, the simulation
    launcher then the visualization launcher both return when both
    packages resolve and the URDF is read.  The URDF is opened twice, the
    two descriptions are different objects, each holds its own actions, and
    the run of the second launcher leaves the description of the first as
    it was. *)
Theorem simulation_then_visualization_returns env st pg pm t :
  package_share env "gazebo_ros" = Some pg →
  package_share env "uwrobot_description" = Some pm →
  read_text env st (Py.os_path_join pm ["urdf"; "uwrobot.urdf"]) = Some t →
  ∃ sim viz st' evs,
    simulation_then_visualization env st = (Returned (sim, viz), st') ∧
    (sim < viz)%nat ∧
    entities_of st' sim
      = Some [ Gazebo.robot_state_publisher t;
               Gazebo.gazebo pg (Gazebo.world_path pm);
               Gazebo.spawn;
               Gazebo.joint_state_spawner;
               Gazebo.velocity_spawner;
               Gazebo.steering_spawner ] ∧
    entities_of st' viz
      = Some [ Rviz2.action_declare_arg_mode_path (Rviz2.model_path pm);
               Rviz2.joint_state_publisher_node;
               Rviz2.robot_state_publisher_node t;
               Rviz2.rviz_node (Rviz2.rviz_config_file pm) ] ∧
    files st' = files st ∧
    events st' = events st ++ evs ∧
    opened evs = [Py.os_path_join pm ["urdf"; "uwrobot.urdf"];
                  Py.os_path_join pm ["urdf"; "uwrobot.urdf"]] ∧
    closed evs = opened evs.
Proof.
  intros Hg Hm (b & d & Hb & Hd & ->)%read_text_Some.
  unfold simulation_then_visualization.
  rewrite run_bind, Gazebo_run, Hg, Hm.
  unfold Gazebo.urdf_path at 1. rewrite Hb, Hd. cbv beta iota zeta.
  rewrite run_bind, Rviz2_run, Hm. cbv beta iota zeta.
  rewrite files_extend. unfold Rviz2.model_path at 1. rewrite Hb, Hd.
  cbv beta iota. rewrite run_mret.
  eexists _, _, _, _. split; [reflexivity|].
  split; [rewrite heap_extend, length_app; cbn; lia|].
  split; [apply entities_of_extend, Gazebo_entities|].
  split; [apply Rviz2_entities|].
  split; [reflexivity|].
  rewrite extend_extend. split; [reflexivity|].
  split; reflexivity.
Qed.

Lemma simulation_then_visualization_returns_witness :
  ∃ sim viz st' evs,
    simulation_then_visualization sample_env sample_state
      = (Returned (sim, viz), st') ∧
    (sim < viz)%nat ∧
    entities_of st' sim
      = Some [ Gazebo.robot_state_publisher sample_urdf;
               Gazebo.gazebo sample_pkg_gazebo
                 (Gazebo.world_path sample_pkg_model);
               Gazebo.spawn;
               Gazebo.joint_state_spawner;
               Gazebo.velocity_spawner;
               Gazebo.steering_spawner ] ∧
    entities_of st' viz
      = Some [ Rviz2.action_declare_arg_mode_path
                 (Rviz2.model_path sample_pkg_model);
               Rviz2.joint_state_publisher_node;
               Rviz2.robot_state_publisher_node sample_urdf;
               Rviz2.rviz_node (Rviz2.rviz_config_file sample_pkg_model) ] ∧
    files st' = files sample_state ∧
    events st' = events sample_state ++ evs ∧
    opened evs = [Py.os_path_join sample_pkg_model ["urdf"; "uwrobot.urdf"];
                  Py.os_path_join sample_pkg_model ["urdf"; "uwrobot.urdf"]] ∧
    closed evs = opened evs.
Proof.
  apply (simulation_then_visualization_returns sample_env sample_state
           sample_pkg_gazebo sample_pkg_model sample_urdf);
    reflexivity.
Defined.

(** X17. Run twice in a row, the simulation launcher returns two distinct
    launch descriptions holding equal action lists; no action object is
    shared between them, and the first description is as it was after the
    second run. *)
Theorem simulation_twice_returns env st pg pm t :
  package_share env "gazebo_ros" = Some pg →
  package_share env "uwrobot_description" = Some pm →
  read_text env st (Py.os_path_join pm ["urdf"; "uwrobot.urdf"]) = Some t →
  ∃ first second st' acts es1 es2,
    simulation_twice env st = (Returned (first, second), st') ∧
    first ≠ second ∧
    entities_of st' first = Some acts ∧
    entities_of st' second = Some acts ∧
    length acts = 6 ∧
    entity_locs st' first = Some es1 ∧
    entity_locs st' second = Some es2 ∧
    Forall (λ e, (e < first)%nat) es1 ∧
    Forall (λ e, (first < e < second)%nat) es2.
Proof.
  intros Hg Hm (b & d & Hb & Hd & ->)%read_text_Some.
  unfold simulation_twice.
  rewrite run_bind, Gazebo_run, Hg, Hm.
  unfold Gazebo.urdf_path at 1. rewrite Hb, Hd. cbv beta iota zeta.
  rewrite run_bind, Gazebo_run, Hg, Hm. 
  rewrite files_extend. unfold Gazebo.urdf_path at 1. rewrite Hb, Hd.
  cbv beta iota zeta. rewrite run_mret.
  eexists _, _, _, _, _, _. split; [reflexivity|].
  split; [rewrite heap_extend, length_app; cbn; lia|].
  split; [apply entities_of_extend, Gazebo_entities|].
  split; [apply Gazebo_entities|].
  split; [reflexivity|].
  split.
  { unfold entity_locs.
    erewrite lookup_extend_old;
      [|by rewrite (lookup_extend_new _ _ _ _ 6 eq_refl)].
    reflexivity. }
  split.
  { unfold entity_locs.
    by rewrite (lookup_extend_new _ _ _ _ 6 eq_refl). }
  rewrite heap_extend, length_app. cbn [length GazeboRun.objects].
  split; repeat constructor; lia.
Qed.

Lemma simulation_twice_returns_witness :
  ∃ first second st' acts es1 es2,
    simulation_twice sample_env sample_state
      = (Returned (first, second), st') ∧
    first ≠ second ∧
    entities_of st' first = Some acts ∧
    entities_of st' second = Some acts ∧
    length acts = 6 ∧
    entity_locs st' first = Some es1 ∧
    entity_locs st' second = Some es2 ∧
    Forall (λ e, (e < first)%nat) es1 ∧
    Forall (λ e, (first < e < second)%nat) es2.
Proof.
  apply (simulation_twice_returns sample_env sample_state
           sample_pkg_gazebo sample_pkg_model sample_urdf);
    reflexivity.
Defined.
